(** * ETL of i94 immigration, airport, temperature and demographic data

    A shallow embedding of [etl.py]: the three decoding functions
    ([convert_datetime], [convert_i94mode], [convert_visatype]), the
    Spark SQL queries of the six [read_*] transforms as list programs
    with SQL's three-valued logic, and the transforms themselves as
    programs of a small state-and-error monad over the Spark session
    (temporary views, files, written tables, load calls). *)

From Stdlib Require Import ZArith QArith Qround Bool List Ascii String Lia.
From Stdlib Require Import Permutation DecimalString Sorted.
Import ListNotations.

Local Open Scope string_scope.
Local Open Scope Z_scope.

(** ** SQL values: NULL and three-valued logic *)

Module Sql.

(** A nullable column value is an [option]; a SQL condition evaluates
    to [Some true], [Some false] or [None] (unknown). *)
Definition tri := option bool.

Definition sql_and (a b : tri) : tri :=
  match a, b with
  | Some false, _ | _, Some false => Some false
  | Some true, Some true => Some true
  | _, _ => None
  end.

Definition sql_eq {A : Type} (eqb : A -> A -> bool) (a b : option A) : tri :=
  match a, b with
  | Some x, Some y => Some (eqb x y)
  | _, _ => None
  end.

Definition sql_neq {A : Type} (eqb : A -> A -> bool) (a b : option A) : tri :=
  option_map negb (sql_eq eqb a b).

Definition sql_gt (a b : option Z) : tri :=
  match a, b with
  | Some x, Some y => Some (y <? x)
  | _, _ => None
  end.

(** WHERE, ON and [DataFrame.filter] keep a row only when the
    condition is true; unknown rejects the row like false. *)
Definition holds (c : tri) : bool :=
  match c with Some true => true | _ => false end.

Definition isNotNull {A : Type} (a : option A) : bool :=
  match a with Some _ => true | None => false end.

Definition ifnull {A : Type} (a : option A) (d : A) : A :=
  match a with Some x => x | None => d end.

End Sql.

(** ** Strings: [upper], [trim], [||] and [split] *)

Module Str.

Definition is_lower (c : ascii) : bool :=
  let n := nat_of_ascii c in (97 <=? n)%nat && (n <=? 122)%nat.

Definition upper_ascii (c : ascii) : ascii :=
  if is_lower c then ascii_of_nat (nat_of_ascii c - 32) else c.

(** SQL [upper]; characters outside a-z are left as they are. *)
Fixpoint upper (s : string) : string :=
  match s with
  | EmptyString => EmptyString
  | String c s' => String (upper_ascii c) (upper s')
  end.

Definition is_blank (c : ascii) : bool := Ascii.eqb c " "%char.

Fixpoint dropwhile (p : ascii -> bool) (l : list ascii) : list ascii :=
  match l with
  | c :: l' => if p c then dropwhile p l' else l
  | [] => []
  end.

(** Removes the characters satisfying [p] from both ends. *)
Definition strip (p : ascii -> bool) (l : list ascii) : list ascii :=
  rev (dropwhile p (rev (dropwhile p l))).

(** SQL [trim]: removes the space character from both ends. *)
Definition trim (s : string) : string :=
  string_of_list_ascii (strip is_blank (list_ascii_of_string s)).

(** [split(s, ",")], accumulating the current piece in reverse. *)
Fixpoint split_on (sep : ascii) (cur : string) (s : string) : list string :=
  match s with
  | EmptyString => [cur]
  | String c s' =>
      if Ascii.eqb c sep then cur :: split_on sep EmptyString s'
      else split_on sep (cur ++ String c EmptyString) s'
  end.

Definition split (sep : ascii) (s : string) : list string :=
  split_on sep EmptyString s.

(** [Column.getItem i] on an array column: NULL when out of range. *)
Definition getItem (l : option (list string)) (i : nat) : option string :=
  match l with Some xs => nth_error xs i | None => None end.

End Str.

(** ** Calendar dates

    A date is its proleptic Gregorian ordinal, the number
    [datetime.toordinal()] returns: day 1 is 0001-01-01.  The functions
    below are the calendar functions of the SQL queries. *)

Module Cal.

Definition date := Z.

Definition is_leap (y : Z) : bool :=
  (y mod 4 =? 0) && (negb (y mod 100 =? 0) || (y mod 400 =? 0)).

Definition days_before_year (y : Z) : Z :=
  let p := y - 1 in p * 365 + p / 4 - p / 100 + p / 400.

Definition days_in_month (y m : Z) : Z :=
  if m =? 2 then (if is_leap y then 29 else 28)
  else if (m =? 4) || (m =? 6) || (m =? 9) || (m =? 11) then 30
  else 31.

Fixpoint days_before_month_aux (y : Z) (k : nat) : Z :=
  match k with
  | O => 0
  | S k' => days_before_month_aux y k' + days_in_month y (Z.of_nat k)
  end.

Definition days_before_month (y m : Z) : Z :=
  days_before_month_aux y (Z.to_nat (m - 1)).

Definition ymd2ord (y m d : Z) : date :=
  days_before_year y + days_before_month y m + d.

(** Year, month and day of an ordinal (the inverse of [ymd2ord]). *)
Definition ord2ymd (n : date) : Z * Z * Z :=
  let n0 := n - 1 in
  let n400 := n0 / 146097 in
  let r400 := n0 mod 146097 in
  let n100 := r400 / 36524 in
  let r100 := r400 mod 36524 in
  let n4 := r100 / 1461 in
  let r4 := r100 mod 1461 in
  let n1 := r4 / 365 in
  let r1 := r4 mod 365 in
  let y := n400 * 400 + 1 + n100 * 100 + n4 * 4 + n1 in
  if (n1 =? 4) || (n100 =? 4) then (y - 1, 12, 31)
  else
    let leap := (n1 =? 3) && (negb (n4 =? 24) || (n100 =? 3)) in
    let m := Z.shiftr (r1 + 50) 5 in
    let preceding :=
      days_before_month 1 m + (if (2 <? m) && leap then 1 else 0) in
    if r1 <? preceding then
      let m' := m - 1 in
      let preceding' :=
        preceding - (days_in_month 1 m' + (if (m' =? 2) && leap then 1 else 0)) in
      (y, m', r1 - preceding' + 1)
    else (y, m, r1 - preceding + 1).

Definition year (d : date) : Z := fst (fst (ord2ymd d)).
Definition month (d : date) : Z := snd (fst (ord2ymd d)).
Definition day (d : date) : Z := snd (ord2ymd d).
Definition quarter (d : date) : Z := (month d - 1) / 3 + 1.

(** [dayofweek]: 1 is Sunday, 7 is Saturday. *)
Definition dayofweek (d : date) : Z := d mod 7 + 1.

(** Monday of ISO week 1 of year [y]: the week holding the year's
    first Thursday. *)
Definition isoweek1monday (y : Z) : date :=
  let firstday := ymd2ord y 1 1 in
  let firstweekday := (firstday + 6) mod 7 in
  let monday := firstday - firstweekday in
  if 3 <? firstweekday then monday + 7 else monday.

(** [weekofyear]: the ISO 8601 week number. *)
Definition weekofyear (d : date) : Z :=
  let y := year d in
  let w := (d - isoweek1monday y) / 7 in
  if w <? 0 then (d - isoweek1monday (y - 1)) / 7 + 1
  else if (52 <=? w) && (isoweek1monday (y + 1) <=? d) then 1
  else w + 1.

End Cal.

(** ** Codec layer: the three Python functions registered as UDFs *)

Module Codec.
Import Cal.

(** A double-precision column value: a finite double is the rational it
    denotes. *)
Inductive double : Type :=
| DFin (q : Q)
| DNaN
| DPosInf
| DNegInf.

(** The Python values a UDF argument can be. *)
Inductive PyVal : Type :=
| PyNone
| PyInt (n : Z)
| PyFloat (x : double)
| PyStr (s : string).

Inductive PyExc : Type := TypeError | ValueError | OverflowError.

Inductive result (A : Type) : Type :=
| Ok (a : A)
| Raise (e : PyExc).
Arguments Ok {A} a.
Arguments Raise {A} e.

Definition bind {A B : Type} (r : result A) (k : A -> result B) : result B :=
  match r with
  | Ok a => k a
  | Raise e => Raise e
  end.

Notation "x <- r ;; k" := (bind r (fun x => k))
  (at level 61, r at next level, right associativity).

(** What a double column hands to a Python UDF. *)
Definition to_py (v : option double) : PyVal :=
  match v with
  | Some x => PyFloat x
  | None => PyNone
  end.

(** *** [int(x)] *)

Definition Qtrunc (q : Q) : Z := Z.quot (Qnum q) (Zpos (Qden q)).

Definition is_digit (c : ascii) : bool :=
  let n := nat_of_ascii c in (48 <=? n)%nat && (n <=? 57)%nat.

Definition digit_val (c : ascii) : Z := Z.of_nat (nat_of_ascii c - 48).

Definition is_pyspace (c : ascii) : bool :=
  let n := nat_of_ascii c in
  ((9 <=? n)%nat && (n <=? 13)%nat) || ((28 <=? n)%nat && (n <=? 32)%nat).

(** Decimal digits, with single underscores allowed between digits. *)
Fixpoint parse_digits (acc : Z) (after_digit : bool) (cs : list ascii) : option Z :=
  match cs with
  | [] => if after_digit then Some acc else None
  | c :: cs' =>
      if is_digit c then parse_digits (10 * acc + digit_val c) true cs'
      else if Ascii.eqb c "_"%char then
        (if after_digit then parse_digits acc false cs' else None)
      else None
  end.

Definition parse_signed (cs : list ascii) : option Z :=
  match cs with
  | c :: cs' =>
      if Ascii.eqb c "-"%char then option_map Z.opp (parse_digits 0 false cs')
      else if Ascii.eqb c "+"%char then parse_digits 0 false cs'
      else parse_digits 0 false cs
  | [] => None
  end.

(** [int(s)] for a string of ASCII characters, base 10. *)
Definition parse_int (s : string) : option Z :=
  parse_signed (Str.strip is_pyspace (list_ascii_of_string s)).

Definition py_int (v : PyVal) : result Z :=
  match v with
  | PyNone => Raise TypeError
  | PyInt n => Ok n
  | PyFloat (DFin q) => Ok (Qtrunc q)
  | PyFloat DNaN => Raise ValueError
  | PyFloat _ => Raise OverflowError
  | PyStr s =>
      match parse_int s with
      | Some n => Ok n
      | None => Raise ValueError
      end
  end.

(** *** [datetime] and [timedelta] *)

Definition MINYEAR : Z := 1.
Definition MAXYEAR : Z := 9999.
Definition MAXORDINAL : Z := 3652059.
Definition MAX_DELTA_DAYS : Z := 999999999.

(** [datetime(y, m, d)], at midnight. *)
Definition datetime (y m d : Z) : result date :=
  if (MINYEAR <=? y) && (y <=? MAXYEAR) && (1 <=? m) && (m <=? 12)
     && (1 <=? d) && (d <=? days_in_month y m)
  then Ok (ymd2ord y m d)
  else Raise ValueError.

(** [timedelta(days=n)] *)
Definition timedelta (n : Z) : result Z :=
  if Z.abs n <=? MAX_DELTA_DAYS then Ok n else Raise OverflowError.

(** [datetime.__add__] *)
Definition datetime_add (d : date) (td : Z) : result date :=
  let o := d + td in
  if (0 <? o) && (o <=? MAXORDINAL) then Ok o else Raise OverflowError.

(** *** The three functions *)

Definition convert_datetime (num_days : PyVal) : option date :=
  match
    (start <- datetime 1960 1 1 ;;
     n <- py_int num_days ;;
     td <- timedelta n ;;
     datetime_add start td)
  with
  | Ok d => Some d
  | Raise _ => None
  end.

(** [v == k] for an integer literal [k]. *)
Definition py_eq_int (v : PyVal) (k : Z) : bool :=
  match v with
  | PyInt n => n =? k
  | PyFloat (DFin q) => Qeq_bool q (inject_Z k)
  | _ => false
  end.

Definition convert_i94mode (mode : PyVal) : string :=
  if py_eq_int mode 1 then "Air"
  else if py_eq_int mode 2 then "Sea"
  else if py_eq_int mode 3 then "Land"
  else "Unknown".

Definition convert_visatype (visa : PyVal) : string :=
  match visa with
  | PyNone => "Not Reported"
  | _ =>
      if py_eq_int visa 1 then "Business"
      else if py_eq_int visa 2 then "Pleasure"
      else if py_eq_int visa 3 then "Student"
      else "Unknown"
  end.

End Codec.

(** ** Relational operators on DataFrames

    A DataFrame is the list of its rows.  [distinct] is [nodup] for the
    row type's decidable equality, a join is a nested loop, [orderBy] a
    stable sort, and [dense_rank] counts the distinct ordering values
    that come before a row's own within its partition. *)

Module Rel.

Definition option_eq_dec {A : Type} (dec : forall x y : A, {x = y} + {x <> y})
  (a b : option A) : {a = b} + {a <> b}.
Proof. decide equality. Defined.

Definition double_eq_dec (a b : Codec.double) : {a = b} + {a <> b}.
Proof.
  decide equality.
  destruct q as [n1 d1], q0 as [n2 d2].
  destruct (Z.eq_dec n1 n2) as [-> | Hn]; [| right; congruence].
  destruct (Pos.eq_dec d1 d2) as [-> | Hd]; [left; reflexivity | right; congruence].
Defined.

Definition ostring_eq_dec := option_eq_dec string_dec.
Definition oZ_eq_dec := option_eq_dec Z.eq_dec.
Definition odouble_eq_dec := option_eq_dec double_eq_dec.

Section Operators.
Context {A B : Type}.

(** [a JOIN b ON cond] *)
Definition inner_join (on : A -> B -> Sql.tri) (l : list A) (r : list B) : list (A * B) :=
  flat_map (fun a => map (pair a) (filter (fun b => Sql.holds (on a b)) r)) l.

(** [a LEFT OUTER JOIN b ON cond]: a left row without a match is kept
    once, with the right side NULL. *)
Definition left_outer_join (on : A -> B -> Sql.tri) (l : list A) (r : list B)
  : list (A * option B) :=
  flat_map (fun a =>
              match filter (fun b => Sql.holds (on a b)) r with
              | [] => [(a, None)]
              | ms => map (fun b => (a, Some b)) ms
              end) l.

Fixpoint insert_by (leb : A -> A -> bool) (x : A) (l : list A) : list A :=
  match l with
  | [] => [x]
  | y :: l' => if leb x y then x :: l else y :: insert_by leb x l'
  end.

(** [orderBy]: ascending for [leb]. *)
Fixpoint orderBy (leb : A -> A -> bool) (l : list A) : list A :=
  match l with
  | [] => []
  | x :: l' => insert_by leb x (orderBy leb l')
  end.

End Operators.

(** Ascending order of a nullable string column: NULL first. *)
Definition asc_nulls_first (a b : option string) : bool :=
  match a, b with
  | None, _ => true
  | Some _, None => false
  | Some x, Some y => String.leb x y
  end.

Section Window.
Context {Row K : Type}.
Variable key_eqb : K -> K -> bool.
Variable key : Row -> K.
Variable ord : Row -> option Z.

(** [a] comes strictly before [b] under [orderBy(desc(col))]: larger
    values first, NULL last. *)
Definition desc_before (a b : option Z) : bool :=
  match a, b with
  | Some x, Some y => y <? x
  | Some _, None => true
  | None, _ => false
  end.

(** The rows of [r]'s partition. *)
Definition partition_of (rows : list Row) (r : Row) : list Row :=
  filter (fun r' => key_eqb (key r') (key r)) rows.

(** [dense_rank().over(Window.partitionBy(key).orderBy(desc(ord)))] *)
Definition dense_rank (rows : list Row) (r : Row) : Z :=
  1 + Z.of_nat
        (List.length
           (nodup oZ_eq_dec
              (filter (fun o => desc_before o (ord r))
                 (map ord (partition_of rows r))))).

(** [withColumn("rank", ...)] *)
Definition with_rank (rows : list Row) : list (Row * Z) :=
  map (fun r => (r, dense_rank rows r)) rows.

End Window.

End Rel.

(** ** Country table ([read_country_data]) *)

Module Country.
Import Sql Rel Cal.

(** A row of [countries_view]: the country file with [Code] renamed. *)
Record CountryRef : Type := mkCountryRef {
  cv_Country_Code : option Z;
  cv_Country : option string
}.

(** A row of the temperatures-by-country file. *)
Record CountryTemperature : Type := mkCountryTemperature {
  ct_dt : option date;
  ct_AverageTemperature : option Codec.double;
  ct_AverageTemperatureUncertainty : option Codec.double;
  ct_Country : option string
}.

(** A row of the country table. *)
Record CountryOut : Type := mkCountryOut {
  Country_code : option Z;
  Country : option string;
  LastMeasuredDate : option date;
  AverageTemperature : option Codec.double;
  AverageTemperatureUncertainty : option Codec.double
}.

Definition CountryOut_eq_dec (a b : CountryOut) : {a = b} + {a <> b}.
Proof.
  decide equality;
    first [apply odouble_eq_dec | apply oZ_eq_dec | apply ostring_eq_dec].
Defined.

(** The literal ["1999-12-31"] the [dt] column is compared with. *)
Definition threshold : date := ymd2ord 1999 12 31.

Definition ostring_eqb (a b : option string) : bool :=
  if ostring_eq_dec a b then true else false.

(** [country_temperatures_view]: the rows after 1999 with a temperature,
    ranked by date within their country, rank 1 kept, ordered by
    country.  The [rank] column stays in the view. *)
Definition df_country_temperatures (df : list CountryTemperature)
  : list (CountryTemperature * Z) :=
  let df1 := filter (fun r => holds (sql_gt (ct_dt r) (Some threshold))) df in
  let df2 := filter (fun r => isNotNull (ct_AverageTemperature r)) df1 in
  let df3 := with_rank ostring_eqb ct_Country ct_dt df2 in
  orderBy (fun a b => asc_nulls_first (ct_Country (fst a)) (ct_Country (fst b)))
    (filter (fun rr => snd rr =? 1) df3).

Definition on_country (cv : CountryRef) (ct : CountryTemperature * Z) : tri :=
  sql_eq String.eqb (option_map Str.upper (cv_Country cv))
    (option_map Str.upper (ct_Country (fst ct))).

Definition select_country (j : CountryRef * option (CountryTemperature * Z)) : CountryOut :=
  let (cv, m) := j in
  match m with
  | Some (ct, _) =>
      mkCountryOut (cv_Country_Code cv) (cv_Country cv) (ct_dt ct)
        (ct_AverageTemperature ct) (ct_AverageTemperatureUncertainty ct)
  | None => mkCountryOut (cv_Country_Code cv) (cv_Country cv) None None None
  end.

(** The country table: [select distinct ... from countries_view cv left
    outer join country_temperatures_view ct on upper(cv.Country) =
    upper(ct.Country)]. *)
Definition df_countries (countries_view : list CountryRef)
  (country_temperatures_view : list (CountryTemperature * Z)) : list CountryOut :=
  nodup CountryOut_eq_dec
    (map select_country
       (left_outer_join on_country countries_view country_temperatures_view)).

End Country.

(** ** Port view ([read_port_data]) and demographics table
    ([read_demographics_data]) *)

Module Demographics.
Import Sql Rel.

(** A row of [ports_view]: the i94 port file with [Code], [City] and
    [State] renamed. *)
Record PortRef : Type := mkPortRef {
  Port_Code : option string;
  Port_City : option string;
  State_Code : option string
}.

(** A row of [demo_view]: the demographics file with its columns
    renamed. *)
Record Demo : Type := mkDemo {
  d_City : option string;
  d_State : option string;
  d_Median_Age : option Codec.double;
  d_Male_Population : option Z;
  d_Female_Population : option Z;
  d_Total_Population : option Z;
  d_Number_of_Veterans : option Z;
  d_Foreign_born : option Z;
  d_Avg_Household_Size : option Codec.double;
  d_State_Code : option string;
  d_Race : option string;
  d_Count : option Z
}.

(** A row of the demographics table. *)
Record DemoOut : Type := mkDemoOut {
  o_Port_Code : option string;
  o_Port_City : option string;
  o_State_Code : option string;
  o_State : option string;
  o_Median_Age : option Codec.double;
  o_Male_Population : option Z;
  o_Female_Population : option Z;
  o_Total_Population : option Z;
  o_Number_of_Veterans : option Z;
  o_Foreign_born : option Z;
  o_Avg_Household_Size : option Codec.double;
  o_Race : option string;
  o_Count : option Z
}.

Definition PortRef_eq_dec (a b : PortRef) : {a = b} + {a <> b}.
Proof. decide equality; apply ostring_eq_dec. Defined.

Definition Demo_eq_dec (a b : Demo) : {a = b} + {a <> b}.
Proof.
  decide equality;
    first [apply odouble_eq_dec | apply oZ_eq_dec | apply ostring_eq_dec].
Defined.

Definition joined_eq_dec (a b : PortRef * Demo) : {a = b} + {a <> b}.
Proof. decide equality; [apply Demo_eq_dec | apply PortRef_eq_dec]. Defined.

(** [UPPER(p.Port_City) = UPPER(d.City) AND UPPER(p.State_Code) =
    UPPER(d.State_Code)] *)
Definition on_demo (p : PortRef) (d : Demo) : tri :=
  sql_and
    (sql_eq String.eqb (option_map Str.upper (Port_City p))
       (option_map Str.upper (d_City d)))
    (sql_eq String.eqb (option_map Str.upper (State_Code p))
       (option_map Str.upper (d_State_Code d))).

Definition select_demo (j : PortRef * Demo) : DemoOut :=
  let (p, d) := j in
  mkDemoOut (Port_Code p) (Port_City p) (State_Code p) (d_State d)
    (d_Median_Age d) (d_Male_Population d) (d_Female_Population d)
    (d_Total_Population d) (d_Number_of_Veterans d) (d_Foreign_born d)
    (d_Avg_Household_Size d) (d_Race d) (d_Count d).

(** The demographics table: [select distinct * from ports_view p join
    demo_view d ON ...], then the projection to thirteen columns. *)
Definition df_demographics (ports_view : list PortRef) (demo_view : list Demo)
  : list DemoOut :=
  map select_demo (nodup joined_eq_dec (inner_join on_demo ports_view demo_view)).

End Demographics.

(** ** Casts to [int] *)

Module Cast.

Definition INT_MIN : Z := - 2 ^ 31.
Definition INT_MAX : Z := 2 ^ 31 - 1.

(** The values of an integer column. *)
Definition int32 (z : Z) : Prop := INT_MIN <= z <= INT_MAX.

(** [int(x)] for a decimal with no fractional part: the low 32 bits. *)
Definition int_of_decimal (z : Z) : Z := (z + 2 ^ 31) mod 2 ^ 32 - 2 ^ 31.

(** [int(x)] for a double: the fraction is dropped, NaN is 0 and values
    out of range go to the nearest bound. *)
Definition int_of_double (x : Codec.double) : Z :=
  match x with
  | Codec.DFin q => Z.max INT_MIN (Z.min INT_MAX (Codec.Qtrunc q))
  | Codec.DNaN => 0
  | Codec.DPosInf => INT_MAX
  | Codec.DNegInf => INT_MIN
  end.

End Cast.

(** ** Airport table ([read_airport_data]) *)

Module Airport.
Import Sql Rel Demographics.

(** A row of the airport file.  [elevation_ft] is an integer column. *)
Record AirportCsv : Type := mkAirportCsv {
  f_ident : option string;
  f_type : option string;
  f_name : option string;
  f_elevation_ft : option Z;
  f_continent : option string;
  f_iso_country : option string;
  f_iso_region : option string;
  f_municipality : option string;
  f_gps_code : option string;
  f_iata_code : option string;
  f_local_code : option string;
  f_coordinates : option string
}.

(** A row of [airport_view]: the file's columns and the two split off
    [coordinates]. *)
Record AirportRow : Type := mkAirportRow {
  ident : option string;
  type : option string;
  name : option string;
  elevation_ft : option Z;
  continent : option string;
  iso_country : option string;
  iso_region : option string;
  municipality : option string;
  gps_code : option string;
  iata_code : option string;
  local_code : option string;
  coordinates : option string;
  longitude : option string;
  latitude : option string
}.

(** A row of the airport table.  [a_longitude] and [a_latitude] hold the
    text that [float(...)] is applied to. *)
Record AirportOut : Type := mkAirportOut {
  a_Port_Code : option string;
  a_Port_City : option string;
  a_State_Code : option string;
  a_name : option string;
  a_type : option string;
  elevation_feet : Z;
  elevation_metres : Z;
  a_continent : option string;
  a_iso_country : option string;
  a_iso_region : option string;
  a_municipality : option string;
  a_gps_code : option string;
  a_iata_code : option string;
  a_longitude : option string;
  a_latitude : option string
}.

(** [withColumn("longitude", split(coordinates, ",").getItem(0))] and
    the same for [latitude] with item 1. *)
Definition with_lon_lat (r : AirportCsv) : AirportRow :=
  let coor_long := option_map (Str.split ","%char) (f_coordinates r) in
  mkAirportRow (f_ident r) (f_type r) (f_name r) (f_elevation_ft r) (f_continent r)
    (f_iso_country r) (f_iso_region r) (f_municipality r) (f_gps_code r)
    (f_iata_code r) (f_local_code r) (f_coordinates r)
    (Str.getItem coor_long 0) (Str.getItem coor_long 1).

(** [int(ceil(ifnull(elevation_ft, 0) * 0.3048))]: the product of an
    integer and the decimal literal is exact. *)
Definition metres_of_feet (feet : Z) : Z :=
  Cast.int_of_decimal (Qceiling (inject_Z feet * (3048 # 10000))).

(** [Port_Code = iata_code and iso_region = ('US-' || trim(State_Code))] *)
Definition on_airport (p : PortRef) (a : AirportRow) : tri :=
  sql_and
    (sql_eq String.eqb (Port_Code p) (iata_code a))
    (sql_eq String.eqb (iso_region a)
       (option_map (fun s => "US-" ++ Str.trim s)%string (State_Code p))).

(** [iso_country = 'US' and type <> 'closed'] *)
Definition where_airport (j : PortRef * AirportRow) : tri :=
  sql_and
    (sql_eq String.eqb (iso_country (snd j)) (Some "US"))
    (sql_neq String.eqb (type (snd j)) (Some "closed")).

Definition select_airport (j : PortRef * AirportRow) : AirportOut :=
  let (p, a) := j in
  mkAirportOut (Port_Code p) (Port_City p) (State_Code p) (name a) (type a)
    (ifnull (elevation_ft a) 0) (metres_of_feet (ifnull (elevation_ft a) 0))
    (continent a) (iso_country a) (iso_region a) (municipality a) (gps_code a)
    (iata_code a) (longitude a) (latitude a).

(** The airport table.  (The first query of the function, over
    [airport_view] alone, is overwritten before it is used.) *)
Definition df_airports (ports_view : list PortRef) (airport_view : list AirportRow)
  : list AirportOut :=
  map select_airport
    (filter (fun j => holds (where_airport j))
       (inner_join on_airport ports_view airport_view)).

End Airport.

(** ** City temperature table ([read_city_temperatures]) *)

Module CityTemperature.
Import Sql Rel Cal Demographics.

(** A row of the temperatures-by-city file. *)
Record CityTemp : Type := mkCityTemp {
  dt : option date;
  AverageTemperature : option Codec.double;
  AverageTemperatureUncertainty : option Codec.double;
  City : option string;
  Country : option string;
  Latitude : option string;
  Longitude : option string
}.

(** A row of the city temperature table. *)
Record CityOut : Type := mkCityOut {
  c_Port_Code : option string;
  c_Port_City : option string;
  c_LastMeasuredDate : option date;
  c_AverageTemperature : option Codec.double;
  c_AverageTemperatureUncertainty : option Codec.double
}.

Definition CityOut_eq_dec (a b : CityOut) : {a = b} + {a <> b}.
Proof.
  decide equality;
    first [apply odouble_eq_dec | apply oZ_eq_dec | apply ostring_eq_dec].
Defined.

(** [city_temperatures_view]: the United States rows after 1999, ranked
    by date within their city, rank 1 kept, ordered by city. *)
Definition df_city_temperatures_view (df : list CityTemp) : list (CityTemp * Z) :=
  let df1 := filter (fun r => holds (sql_gt (dt r) (Some Country.threshold))) df in
  let df2 :=
    with_rank Country.ostring_eqb City dt
      (filter (fun r => holds (sql_eq String.eqb (Country r) (Some "United States"))) df1) in
  orderBy (fun a b => asc_nulls_first (City (fst a)) (City (fst b)))
    (filter (fun rr => snd rr =? 1) df2).

Definition on_city (p : PortRef) (c : CityTemp * Z) : tri :=
  sql_eq String.eqb (option_map Str.upper (Port_City p))
    (option_map Str.upper (City (fst c))).

Definition select_city (j : PortRef * (CityTemp * Z)) : CityOut :=
  let (p, c) := j in
  mkCityOut (Port_Code p) (Port_City p) (dt (fst c)) (AverageTemperature (fst c))
    (AverageTemperatureUncertainty (fst c)).

(** The city temperature table: [select distinct ... from Ports_view
    join city_temperatures_view on upper(Port_city) = upper(City) where
    Port_City is not null]. *)
Definition df_city_temperatures (ports_view : list PortRef)
  (city_temperatures_view : list (CityTemp * Z)) : list CityOut :=
  nodup CityOut_eq_dec
    (map select_city
       (filter (fun j => isNotNull (Port_City (fst j)))
          (inner_join on_city ports_view city_temperatures_view))).

End CityTemperature.

(** ** Untyped frames

    The time table is projected by column name, so it is kept as a frame
    of named columns over rows of cells. *)

Module Frame.

Inductive cell : Type :=
| CNull
| CInt (z : Z)
| CDate (d : Cal.date).

Definition cell_eq_dec (a b : cell) : {a = b} + {a <> b}.
Proof. decide equality; apply Z.eq_dec. Defined.

Definition row_eq_dec := list_eq_dec cell_eq_dec.

Record frame : Type := mkFrame {
  columns : list string;
  rows : list (list cell)
}.

Fixpoint index_of (c : string) (cols : list string) : option nat :=
  match cols with
  | [] => None
  | c' :: cols' =>
      if String.eqb c c' then Some O else option_map S (index_of c cols')
  end.

Fixpoint indexes (names cols : list string) : option (list nat) :=
  match names with
  | [] => Some []
  | c :: names' =>
      match index_of c cols, indexes names' cols with
      | Some i, Some is' => Some (i :: is')
      | _, _ => None
      end
  end.

Definition project (idx : list nat) (r : list cell) : list cell :=
  map (fun i => nth i r CNull) idx.

(** [df.select([names])]; there is no result when a name is not a
    column of the frame. *)
Definition select (names : list string) (df : frame) : option frame :=
  match indexes names (columns df) with
  | Some idx => Some (mkFrame names (map (project idx) (rows df)))
  | None => None
  end.

End Frame.

(** ** Immigration and time tables ([read_immigration_data]) *)

Module Immigration.
Import Sql Rel Cal Frame.

(** A row of [immigrations_view]: the numeric columns of the SAS file
    are doubles. *)
Record I94 : Type := mkI94 {
  cicid : option Codec.double;
  i94yr : option Codec.double;
  i94mon : option Codec.double;
  i94cit : option Codec.double;
  i94port : option string;
  biryear : option Codec.double;
  airline : option string;
  fltno : option string;
  i94visa : option Codec.double;
  i94mode : option Codec.double;
  arrdate : option Codec.double;
  depdate : option Codec.double
}.

(** A row of the immigration table, in the order of its projection. *)
Record ImmigrationOut : Type := mkImmigrationOut {
  immigration_id : option Z;
  Year : option Z;
  Month : option Z;
  country_of_citizenship : option Z;
  port_code : option string;
  mode_of_travel : option string;
  visa_type : option string;
  birth_year : option Z;
  arrival_airline : option string;
  arrival_flightnumber : option string;
  arrival_date : option date;
  departure_date : option date
}.

(** [int(col)] on a double column. *)
Definition int (x : option Codec.double) : option Z :=
  option_map Cast.int_of_double x.

(** The three registered functions, applied to a double column. *)
Definition convert_mode (x : option Codec.double) : option string :=
  Some (Codec.convert_i94mode (Codec.to_py x)).

Definition convert_visatype (x : option Codec.double) : option string :=
  Some (Codec.convert_visatype (Codec.to_py x)).

Definition datetime_from_sas (x : option Codec.double) : option date :=
  Codec.convert_datetime (Codec.to_py x).

Definition select_immigration (r : I94) : ImmigrationOut :=
  mkImmigrationOut (int (cicid r)) (int (i94yr r)) (int (i94mon r)) (int (i94cit r))
    (i94port r) (convert_mode (i94mode r)) (convert_visatype (i94visa r))
    (int (biryear r)) (airline r) (fltno r)
    (datetime_from_sas (arrdate r)) (datetime_from_sas (depdate r)).

(** [where int(cicid) = 5748881] *)
Definition where_immigration (r : I94) : tri :=
  sql_eq Z.eqb (int (cicid r)) (Some 5748881).

(** The immigration table. *)
Definition df_immigrations (immigrations_view : list I94) : list ImmigrationOut :=
  map select_immigration
    (filter (fun r => holds (where_immigration r)) immigrations_view).

Definition int_cell (z : option Z) : cell :=
  match z with Some v => CInt v | None => CNull end.

Definition date_cell (d : option date) : cell :=
  match d with Some v => CDate v | None => CNull end.

(** The seven expressions of either half of the time query, for one
    source date. *)
Definition time_row (x : option Codec.double) : list cell :=
  let sas_date := datetime_from_sas x in
  [date_cell sas_date;
   int_cell (option_map year sas_date);
   int_cell (option_map month sas_date);
   int_cell (option_map day sas_date);
   int_cell (option_map weekofyear sas_date);
   int_cell (option_map quarter sas_date);
   int_cell (option_map dayofweek sas_date)].

Definition time_columns : list string :=
  ["sas_date"; "year"; "month"; "day"; "weekofyear"; "quarter"; "dayofweek"]%string.

(** [select distinct ... from immigrations_view where col is not NULL] *)
Definition time_half (col : I94 -> option Codec.double) (immigrations_view : list I94)
  : list (list cell) :=
  nodup row_eq_dec
    (map (fun r => time_row (col r))
       (filter (fun r => isNotNull (col r)) immigrations_view)).

(** The two halves under [union], which removes duplicates. *)
Definition time_union (immigrations_view : list I94) : frame :=
  mkFrame time_columns
    (nodup row_eq_dec
       (time_half arrdate immigrations_view ++ time_half depdate immigrations_view)).

(** The time table: the union projected to six of its columns. *)
Definition df_time_table (immigrations_view : list I94) : option frame :=
  select ["sas_date"; "year"; "month"; "weekofyear"; "quarter"; "dayofweek"]%string
    (time_union immigrations_view).

End Immigration.

(** ** The Spark session and the six transforms

    The session holds the files the loader can read, the temporary views
    by name, and the trace of what the program did: status messages,
    load calls and writes.  A load of a path that holds no file, a file
    of the wrong schema and a query over a missing view abort the run. *)

Module Etl.
Import Frame.

Inductive Table : Type :=
| TCountryRef (l : list Country.CountryRef)
| TCountryTemperature (l : list Country.CountryTemperature)
| TCountryTemperatureRanked (l : list (Country.CountryTemperature * Z))
| TCountryOut (l : list Country.CountryOut)
| TPortRef (l : list Demographics.PortRef)
| TDemo (l : list Demographics.Demo)
| TDemoOut (l : list Demographics.DemoOut)
| TAirportCsv (l : list Airport.AirportCsv)
| TAirportRow (l : list Airport.AirportRow)
| TAirportOut (l : list Airport.AirportOut)
| TI94 (l : list Immigration.I94)
| TImmigrationOut (l : list Immigration.ImmigrationOut)
| TFrame (f : frame)
| TCityTemp (l : list CityTemperature.CityTemp)
| TCityTempRanked (l : list (CityTemperature.CityTemp * Z))
| TCityOut (l : list CityTemperature.CityOut).

Definition num_rows (t : Table) : nat :=
  match t with
  | TCountryRef l => List.length l
  | TCountryTemperature l => List.length l
  | TCountryTemperatureRanked l => List.length l
  | TCountryOut l => List.length l
  | TPortRef l => List.length l
  | TDemo l => List.length l
  | TDemoOut l => List.length l
  | TAirportCsv l => List.length l
  | TAirportRow l => List.length l
  | TAirportOut l => List.length l
  | TI94 l => List.length l
  | TImmigrationOut l => List.length l
  | TFrame f => List.length (rows f)
  | TCityTemp l => List.length l
  | TCityTempRanked l => List.length l
  | TCityOut l => List.length l
  end.

Inductive Event : Type :=
| Print (msg : string)
| Load (path format : string) (sep : option string)
| Write (path mode : string) (partitionBy : list string) (t : Table).

Record Session : Type := mkSession {
  files : string -> option Table;
  views : string -> option Table;
  trace : list Event
}.

Definition M (A : Type) : Type := Session -> option (A * Session).

Definition ret {A : Type} (a : A) : M A := fun s => Some (a, s).

Definition bind {A B : Type} (m : M A) (k : A -> M B) : M B :=
  fun s => match m s with
           | Some (a, s') => k a s'
           | None => None
           end.

Definition abort {A : Type} : M A := fun _ => None.

Notation "x <- m ;; k" := (bind m (fun x => k))
  (at level 61, m at next level, right associativity).
Notation "m ;;; k" := (bind m (fun _ => k))
  (at level 61, right associativity).

Definition emit (e : Event) : M unit :=
  fun s => Some (tt, mkSession (files s) (views s) (trace s ++ [e])).

Definition print (msg : string) : M unit := emit (Print msg).

(** [spark.read.load(path, format=..., sep=...)] *)
Definition load (path format : string) (sep : option string) : M Table :=
  fun s => match files s path with
           | Some t => Some (t, mkSession (files s) (views s)
                                  (trace s ++ [Load path format sep]))
           | None => None
           end.

Definition createOrReplaceTempView (name : string) (t : Table) : M unit :=
  fun s => Some (tt, mkSession (files s)
                       (fun n => if String.eqb n name then Some t else views s n)
                       (trace s)).

(** A view named in a query. *)
Definition view (name : string) : M Table :=
  fun s => match views s name with
           | Some t => Some (t, s)
           | None => None
           end.

(** [df.write.mode(mode).partitionBy(cols).parquet(path)] *)
Definition write (path mode : string) (partitionBy : list string) (t : Table) : M unit :=
  emit (Write path mode partitionBy t).

Definition expect {A : Type} (o : option A) : M A :=
  match o with
  | Some a => ret a
  | None => abort
  end.

(** The load calls of a trace, in order. *)
Definition loads (tr : list Event) : list string :=
  flat_map (fun e => match e with Load p _ _ => [p] | _ => [] end) tr.

(** The tables written to a path, in order. *)
Definition written (path : string) (tr : list Event) : list Table :=
  flat_map (fun e => match e with
                     | Write p _ _ t => if String.eqb p path then [t] else []
                     | _ => []
                     end) tr.

Definition num_of_rows_check (input_df : Table) : M nat :=
  createOrReplaceTempView "input_view" input_df ;;;
  t <- view "input_view" ;;
  ret (num_rows t).

Definition show_nat (n : nat) : string := NilZero.string_of_uint (Nat.to_uint n).

Definition print_rows_read (df : Table) : M unit :=
  n <- num_of_rows_check df ;;
  print ("number of rows read: " ++ show_nat n ++ " ")%string.

Definition as_CountryRef (t : Table) := match t with TCountryRef l => Some l | _ => None end.
Definition as_CountryTemperature (t : Table) :=
  match t with TCountryTemperature l => Some l | _ => None end.
Definition as_CountryTemperatureRanked (t : Table) :=
  match t with TCountryTemperatureRanked l => Some l | _ => None end.
Definition as_PortRef (t : Table) := match t with TPortRef l => Some l | _ => None end.
Definition as_Demo (t : Table) := match t with TDemo l => Some l | _ => None end.
Definition as_AirportCsv (t : Table) := match t with TAirportCsv l => Some l | _ => None end.
Definition as_AirportRow (t : Table) := match t with TAirportRow l => Some l | _ => None end.
Definition as_I94 (t : Table) := match t with TI94 l => Some l | _ => None end.
Definition as_CityTemp (t : Table) := match t with TCityTemp l => Some l | _ => None end.
Definition as_CityTempRanked (t : Table) :=
  match t with TCityTempRanked l => Some l | _ => None end.

Definition csv : string := "csv".

Definition read_country_data
  (country_input_path country_temperature_input_path output_path : string) : M unit :=
  print ("Reading country file " ++ country_input_path ++ "...")%string ;;;
  df_i94_countries <- load country_input_path csv (Some ",") ;;
  print_rows_read df_i94_countries ;;;
  countries <- expect (as_CountryRef df_i94_countries) ;;
  createOrReplaceTempView "countries_view" (TCountryRef countries) ;;;
  print ("Reading Country temperature file " ++ country_temperature_input_path
         ++ "...")%string ;;;
  df_country_temperatures <- load "GlobalLandTemperaturesByCountry.csv" csv (Some ",") ;;
  print_rows_read df_country_temperatures ;;;
  temperatures <- expect (as_CountryTemperature df_country_temperatures) ;;
  createOrReplaceTempView "country_temperatures_view"
    (TCountryTemperatureRanked (Country.df_country_temperatures temperatures)) ;;;
  print "Creating country table..." ;;;
  cv <- bind (view "countries_view") (fun t => expect (as_CountryRef t)) ;;
  ct <- bind (view "country_temperatures_view")
          (fun t => expect (as_CountryTemperatureRanked t)) ;;
  let output_folder := (output_path ++ "/parquet/Country_table")%string in
  print ("Writing joined country table in folder " ++ output_folder ++ "...")%string ;;;
  write output_folder "overwrite" [] (TCountryOut (Country.df_countries cv ct)).

Definition read_port_data (ports_input_path : string) : M (list Demographics.PortRef) :=
  print ("Reading i94 ports file " ++ ports_input_path ++ "...")%string ;;;
  df_i94_ports <- load ports_input_path csv (Some ",") ;;
  print_rows_read df_i94_ports ;;;
  ports <- expect (as_PortRef df_i94_ports) ;;
  createOrReplaceTempView "ports_view" (TPortRef ports) ;;;
  ret ports.

Definition read_demographics_data (port_df_view : list Demographics.PortRef)
  (demo_input_path output_path : string) : M unit :=
  print ("Reading demographics file " ++ demo_input_path ++ "...")%string ;;;
  df_demographics <- load "us-cities-demographics.csv" csv (Some ";") ;;
  print_rows_read df_demographics ;;;
  demo <- expect (as_Demo df_demographics) ;;
  createOrReplaceTempView "demo_view" (TDemo demo) ;;;
  p <- bind (view "ports_view") (fun t => expect (as_PortRef t)) ;;
  d <- bind (view "demo_view") (fun t => expect (as_Demo t)) ;;
  let output_folder := (output_path ++ "/parquet/Demographics_table")%string in
  print ("Writing joined demographic and i94_ports files to parquet files in folder "
         ++ output_folder ++ "...")%string ;;;
  write output_folder "overwrite" [] (TDemoOut (Demographics.df_demographics p d)).

Definition read_airport_data (port_df_view : list Demographics.PortRef)
  (airports_input_path output_path : string) : M unit :=
  print ("Reading airport file " ++ airports_input_path ++ "...")%string ;;;
  df_airports <- load airports_input_path csv (Some ",") ;;
  print_rows_read df_airports ;;;
  airports <- expect (as_AirportCsv df_airports) ;;
  createOrReplaceTempView "airport_view"
    (TAirportRow (map Airport.with_lon_lat airports)) ;;;
  p <- bind (view "ports_view") (fun t => expect (as_PortRef t)) ;;
  a <- bind (view "airport_view") (fun t => expect (as_AirportRow t)) ;;
  let output_folder := (output_path ++ "/parquet/airports_table")%string in
  print ("Writing joined airport-codes and i94_ports files to parquet files in folder "
         ++ output_folder ++ "...")%string ;;;
  write output_folder "overwrite" ["State_Code"%string]
    (TAirportOut (Airport.df_airports p a)).

Definition read_immigration_data (input_path output_path : string) : M unit :=
  print ("Reading immigration file " ++ input_path ++ "...")%string ;;;
  df_immigrations <- load input_path "com.github.saurfang.sas.spark" None ;;
  print_rows_read df_immigrations ;;;
  immigrations <- expect (as_I94 df_immigrations) ;;
  createOrReplaceTempView "immigrations_view" (TI94 immigrations) ;;;
  v <- bind (view "immigrations_view") (fun t => expect (as_I94 t)) ;;
  let output_folder := (output_path ++ "/parquet/immigrations_table")%string in
  print ("Writing immigration table to parquet files in folder " ++ output_folder
         ++ "...")%string ;;;
  write output_folder "append" ["Year"; "Month"]%string
    (TImmigrationOut (Immigration.df_immigrations v)) ;;;
  print "Creating time table..." ;;;
  v' <- bind (view "immigrations_view") (fun t => expect (as_I94 t)) ;;
  df_time_table <- expect (Immigration.df_time_table v') ;;
  let output_folder := (output_path ++ "/parquet/time_table")%string in
  print ("Writing time table to parquet files in folder " ++ output_folder
         ++ "...")%string ;;;
  write output_folder "append" ["year"; "month"]%string (TFrame df_time_table).

Definition read_city_temperatures (port_df_view : list Demographics.PortRef)
  (city_temperature_input_path output_path : string) : M unit :=
  print ("Reading city temperatures file " ++ city_temperature_input_path
         ++ "...")%string ;;;
  df <- load "../../data2/GlobalLandTemperaturesByCity.csv" csv (Some ",") ;;
  print_rows_read df ;;;
  temperatures <- expect (as_CityTemp df) ;;
  createOrReplaceTempView "city_temperatures_view"
    (TCityTempRanked (CityTemperature.df_city_temperatures_view temperatures)) ;;;
  p <- bind (view "ports_view") (fun t => expect (as_PortRef t)) ;;
  c <- bind (view "city_temperatures_view") (fun t => expect (as_CityTempRanked t)) ;;
  let output_folder := (output_path ++ "/parquet/city_temperatures")%string in
  print ("Writing time table to parquet files in folder " ++ output_folder
         ++ "...")%string ;;;
  write output_folder "append" []
    (TCityOut (CityTemperature.df_city_temperatures p c)).

(** The [LOCAL] section of the configuration file. *)
Record Config : Type := mkConfig {
  I94_INPUT_PATH : string;
  AIRPORTS_INPUT_PATH : string;
  PORTS_INPUT_PATH : string;
  COUNTRY_INPUT_PATH : string;
  COUNTRY_TEMPERATURE_INPUT_PATH : string;
  CITY_TEMPERATURE_INPUT_PATH : string;
  DEMO_INPUT_PATH : string;
  OUTPUT_PATH : string
}.

Definition main (config : Config) : M unit :=
  read_country_data (COUNTRY_INPUT_PATH config)
    (COUNTRY_TEMPERATURE_INPUT_PATH config) (OUTPUT_PATH config) ;;;
  df_i94_ports_view <- read_port_data (PORTS_INPUT_PATH config) ;;
  read_demographics_data df_i94_ports_view (DEMO_INPUT_PATH config)
    (OUTPUT_PATH config) ;;;
  read_airport_data df_i94_ports_view (AIRPORTS_INPUT_PATH config)
    (OUTPUT_PATH config) ;;;
  read_immigration_data (I94_INPUT_PATH config) (OUTPUT_PATH config) ;;;
  read_city_temperatures df_i94_ports_view (CITY_TEMPERATURE_INPUT_PATH config)
    (OUTPUT_PATH config).

End Etl.

(** * Properties *)

(** ** Facts about the SQL values, strings and casts *)

Module SqlFacts.
Import Sql.

Lemma holds_and (a b : tri) :
  holds (sql_and a b) = holds a && holds b.
Proof. destruct a as [[|]|], b as [[|]|]; reflexivity. Qed.

Lemma holds_eq {A : Type} (eqb : A -> A -> bool) (a b : option A) :
  holds (sql_eq eqb a b) = true <->
  exists x y, a = Some x /\ b = Some y /\ eqb x y = true.
Proof.
  destruct a as [x|], b as [y|]; simpl; split;
    try discriminate; try (intros (? & ? & ? & ? & ?); discriminate).
  - intros H. exists x, y. destruct (eqb x y); [auto | discriminate].
  - intros (x' & y' & Hx & Hy & E). injection Hx as <-. injection Hy as <-.
    now rewrite E.
Qed.

End SqlFacts.

Module StrFacts.
Import Str.

Lemma upper_ascii_idem c : upper_ascii (upper_ascii c) = upper_ascii c.
Proof.
  unfold upper_ascii.
  destruct (is_lower c) eqn:E; [| now rewrite E].
  unfold is_lower in *.
  apply andb_prop in E as [E1 E2].
  apply Nat.leb_le in E1. apply Nat.leb_le in E2.
  rewrite nat_ascii_embedding by lia.
  replace ((97 <=? nat_of_ascii c - 32)%nat) with false; [reflexivity |].
  symmetry. apply Nat.leb_gt. lia.
Qed.

Lemma upper_idem s : upper (upper s) = upper s.
Proof.
  induction s as [| c s IH]; simpl; [reflexivity |].
  now rewrite upper_ascii_idem, IH.
Qed.

End StrFacts.

Module CastFacts.
Import Cast.

Lemma int_of_decimal_id z : int32 z -> int_of_decimal z = z.
Proof.
  unfold int32, INT_MIN, INT_MAX, int_of_decimal. intros H.
  rewrite Z.mod_small; lia.
Qed.

End CastFacts.

(** ** Sample rows *)

Module Sample.

Definition chile (y m d : Z) (t : Z) : Country.CountryTemperature :=
  Country.mkCountryTemperature (Some (Cal.ymd2ord y m d)) (Some (Codec.DFin (t # 10)))
    (Some (Codec.DFin (3 # 10))) (Some "Chile").

Definition atlanta_demo (city state_code : string) : Demographics.Demo :=
  Demographics.mkDemo (Some city) (Some "Georgia") (Some (Codec.DFin (35 # 1)))
    (Some 223960) (Some 239895) (Some 463855) (Some 18143) (Some 34373)
    (Some (Codec.DFin (224 # 100))) (Some state_code) (Some "White") (Some 201149).

Definition atl_airport (feet : option Z) (ty : string) : Airport.AirportRow :=
  Airport.with_lon_lat
    (Airport.mkAirportCsv (Some "KATL") (Some ty) (Some "Hartsfield Jackson") feet
       (Some "NA") (Some "US") (Some "US-GA") (Some "Atlanta") (Some "KATL")
       (Some "ATL") (Some "ATL") (Some "-84.428101, 33.6367")).

Definition chicago (y m d : Z) (t : option Z) (country : string)
  : CityTemperature.CityTemp :=
  CityTemperature.mkCityTemp (Some (Cal.ymd2ord y m d))
    (option_map (fun z => Codec.DFin (z # 10)) t)
    (Some (Codec.DFin (3 # 10))) (Some "Chicago") (Some country)
    (Some "42.59N") (Some "87.27W").

Definition fin (z : Z) : option Codec.double := Some (Codec.DFin (inject_Z z)).

Definition traveller (id : Z) (arr dep : option Codec.double) : Immigration.I94 :=
  Immigration.mkI94 (fin id) (fin 2016) (fin 4) (fin 245) (Some "ATL") (fin 1976)
    (Some "DL") (Some "00188") (fin 2) (fin 1) arr dep.

End Sample.

(** ** The definitions on sample rows *)

Module CalExamples.
Import Cal.

Example ord_1960 : ymd2ord 1960 1 1 = 715510.
Proof. reflexivity. Qed.

Example ord_1970 : ymd2ord 1970 1 1 = 719163.
Proof. reflexivity. Qed.

Example ord_max : ymd2ord 9999 12 31 = 3652059.
Proof. reflexivity. Qed.

Example ymd_2016_04_30 :
  ord2ymd (ymd2ord 2016 4 30) = (2016, 4, 30)
  /\ dayofweek (ymd2ord 2016 4 30) = 7
  /\ weekofyear (ymd2ord 2016 4 30) = 17
  /\ quarter (ymd2ord 2016 4 30) = 2.
Proof. repeat split; reflexivity. Qed.

Example ymd_leap_day :
  ord2ymd (ymd2ord 2016 2 29) = (2016, 2, 29)
  /\ ord2ymd (ymd2ord 2016 12 31) = (2016, 12, 31)
  /\ ord2ymd (ymd2ord 2000 3 1) = (2000, 3, 1)
  /\ weekofyear (ymd2ord 2016 1 1) = 53
  /\ weekofyear (ymd2ord 2018 12 31) = 1.
Proof. repeat split; reflexivity. Qed.

End CalExamples.

Module CodecExamples.
Import Cal Codec.

Example convert_datetime_20566 :
  option_map ord2ymd (convert_datetime (PyFloat (DFin (20566 # 1)))) = Some (2016, 4, 22).
Proof. reflexivity. Qed.

Example convert_datetime_strings :
  convert_datetime (PyStr " 1_0 ") = Some (ymd2ord 1960 1 11)
  /\ convert_datetime (PyStr "abc") = None
  /\ convert_datetime (PyStr "1__0") = None
  /\ convert_datetime (PyStr "-1") = Some (ymd2ord 1959 12 31)
  /\ convert_datetime (PyStr "") = None.
Proof. repeat split; reflexivity. Qed.

End CodecExamples.

Module CountryExamples.
Import Sql Rel Cal Country Sample.

Example latest_of_chile :
  map fst (df_country_temperatures
             [chile 1998 1 1 90; chile 2013 7 1 85; chile 2013 8 1 97;
              mkCountryTemperature (Some (ymd2ord 2013 9 1)) None None (Some "Chile")])
  = [chile 2013 8 1 97].
Proof. reflexivity. Qed.

Example left_join_keeps_unmatched :
  df_countries
    [mkCountryRef (Some 689) (Some "BRAZIL"); mkCountryRef (Some 690) (Some "CHILE")]
    (df_country_temperatures [chile 2013 8 1 97])
  = [mkCountryOut (Some 689) (Some "BRAZIL") None None None;
     mkCountryOut (Some 690) (Some "CHILE") (Some (ymd2ord 2013 8 1))
       (Some (Codec.DFin (97 # 10))) (Some (Codec.DFin (3 # 10)))].
Proof. reflexivity. Qed.

End CountryExamples.

Module DemographicsExamples.
Import Sql Rel Demographics Sample.

Example atlanta_joins :
  map o_Port_Code
    (df_demographics
       [mkPortRef (Some "ATL") (Some "ATLANTA") (Some "GA");
        mkPortRef (Some "ANC") (Some "ANCHORAGE") (Some "AK")]
       [atlanta_demo "Atlanta" "ga"])
  = [Some "ATL"].
Proof. reflexivity. Qed.

End DemographicsExamples.

Module AirportExamples.
Import Sql Rel Demographics Airport Sample.

Example atl_elevation :
  map (fun r => (elevation_feet r, elevation_metres r, a_longitude r, a_latitude r))
    (df_airports [mkPortRef (Some "ATL") (Some "ATLANTA") (Some " GA ")]
       [atl_airport (Some 1026) "large_airport"; atl_airport None "heliport";
        atl_airport (Some 5) "closed"])
  = [(1026, 313, Some "-84.428101", Some " 33.6367");
     (0, 0, Some "-84.428101", Some " 33.6367")].
Proof. reflexivity. Qed.

End AirportExamples.

Module CityTemperatureExamples.
Import Sql Rel Cal Demographics CityTemperature Sample.

Example latest_of_chicago :
  map fst (df_city_temperatures_view
             [chicago 1998 1 1 (Some 10) "United States";
              chicago 2015 1 1 (Some (-40)) "United States";
              chicago 2015 6 1 (Some 210) "United States";
              chicago 2015 9 1 (Some 190) "Canada"])
  = [chicago 2015 6 1 (Some 210) "United States"].
Proof. reflexivity. Qed.

(** The city-level reducer does not drop null temperatures: the latest
    row of a city is kept also when its temperature is null. *)
Example latest_of_chicago_without_temperature :
  map fst (df_city_temperatures_view
             [chicago 2015 6 1 (Some 210) "United States";
              chicago 2015 9 1 None "United States"])
  = [chicago 2015 9 1 None "United States"].
Proof. reflexivity. Qed.

End CityTemperatureExamples.

Module ImmigrationExamples.
Import Sql Rel Cal Frame Immigration Sample.

Example one_traveller_kept :
  df_immigrations
    [traveller 5748880 (fin 20566) None; traveller 5748881 (fin 20574) (fin 20582)]
  = [mkImmigrationOut (Some 5748881) (Some 2016) (Some 4) (Some 245) (Some "ATL")
       (Some "Air") (Some "Pleasure") (Some 1976) (Some "DL") (Some "00188")
       (Some (ymd2ord 2016 4 30)) (Some (ymd2ord 2016 5 8))].
Proof. reflexivity. Qed.

Example time_table_of_two :
  option_map rows
    (df_time_table
       [traveller 5748880 (fin 20566) None; traveller 5748881 (fin 20566) (fin 20574)])
  = Some [[CDate (ymd2ord 2016 4 22); CInt 2016; CInt 4; CInt 16; CInt 2; CInt 6];
          [CDate (ymd2ord 2016 4 30); CInt 2016; CInt 4; CInt 17; CInt 2; CInt 7]].
Proof. reflexivity. Qed.

End ImmigrationExamples.


(** ** The codec layer *)

Module CodecSpec.
Import Codec Cal.

(** The travel-mode table as the specification words it. *)
Definition decode_travel_mode (code : option Z) : string :=
  match code with
  | Some 1 => "Air"
  | Some 2 => "Sea"
  | Some 3 => "Land"
  | _ => "Unknown"
  end.

(** The visa-type table as the specification words it. *)
Definition decode_visa_type (code : option Z) : string :=
  match code with
  | None => "Not Reported"
  | Some 1 => "Business"
  | Some 2 => "Pleasure"
  | Some 3 => "Student"
  | Some _ => "Unknown"
  end.

(** An integer or null code as the Python value the function receives. *)
Definition py_of_code (code : option Z) : PyVal :=
  match code with
  | Some n => PyInt n
  | None => PyNone
  end.



(** The last day offset that still falls on a [datetime]: 9999-12-31. *)
Definition LAST_OFFSET : Z := 2936549.

Lemma eqb_literal (n k : Z) (a b : string) :
  (if n =? k then a else b) = (if Z.eq_dec n k then a else b).
Proof.
  destruct (Z.eqb_spec n k), (Z.eq_dec n k); congruence.
Qed.

Lemma convert_i94mode_int (n : Z) :
  convert_i94mode (PyInt n) = decode_travel_mode (Some n).
Proof.
  unfold convert_i94mode, py_eq_int.
  destruct (Z.eqb_spec n 1) as [-> | H1]; [reflexivity |].
  destruct (Z.eqb_spec n 2) as [-> | H2]; [reflexivity |].
  destruct (Z.eqb_spec n 3) as [-> | H3]; [reflexivity |].
  destruct n as [| p | p]; try reflexivity.
  destruct p as [[p | p |] | [p | p |] |]; try reflexivity; congruence.
Qed.

Lemma convert_visatype_int (n : Z) :
  convert_visatype (PyInt n) = decode_visa_type (Some n).
Proof.
  unfold convert_visatype, py_eq_int.
  destruct (Z.eqb_spec n 1) as [-> | H1]; [reflexivity |].
  destruct (Z.eqb_spec n 2) as [-> | H2]; [reflexivity |].
  destruct (Z.eqb_spec n 3) as [-> | H3]; [reflexivity |].
  destruct n as [| p | p]; try reflexivity.
  destruct p as [[p | p |] | [p | p |] |]; try reflexivity; congruence.
Qed.

(** A double that holds an integer is decoded like the integer: the SAS
    file stores the codes as doubles. *)
Lemma py_eq_int_double (n k : Z) :
  py_eq_int (PyFloat (DFin (inject_Z n))) k = py_eq_int (PyInt n) k.
Proof.
  unfold py_eq_int, Qeq_bool, inject_Z. simpl.
  rewrite !Z.mul_1_r. reflexivity.
Qed.

Lemma convert_i94mode_double (n : Z) :
  convert_i94mode (PyFloat (DFin (inject_Z n))) = decode_travel_mode (Some n).
Proof.
  rewrite <- convert_i94mode_int. unfold convert_i94mode.
  now rewrite !py_eq_int_double.
Qed.

Lemma convert_visatype_double (n : Z) :
  convert_visatype (PyFloat (DFin (inject_Z n))) = decode_visa_type (Some n).
Proof.
  rewrite <- convert_visatype_int. unfold convert_visatype.
  now rewrite !py_eq_int_double.
Qed.

(** *** [int] of a string *)






(** *** [convert_datetime] *)

Lemma convert_datetime_unfold (v : PyVal) :
  convert_datetime v =
  match py_int v with
  | Ok n =>
      if Z.abs n <=? MAX_DELTA_DAYS then
        (if (0 <? 715510 + n) && (715510 + n <=? MAXORDINAL)
         then Some (715510 + n) else None)
      else None
  | Raise _ => None
  end.
Proof.
  unfold convert_datetime.
  change (datetime 1960 1 1) with (@Ok date 715510).
  unfold bind. destruct (py_int v) as [n | e]; [| reflexivity].
  unfold timedelta. destruct (Z.abs n <=? MAX_DELTA_DAYS); [| reflexivity].
  unfold datetime_add.
  destruct ((0 <? 715510 + n) && (715510 + n <=? MAXORDINAL)); reflexivity.
Qed.







(** C5: both decoders are total functions into strings and agree with
    the specified tables on every integer and on null: travel mode 1 is
    ["Air"], 2 ["Sea"], 3 ["Land"] and anything else, null included,
    ["Unknown"]; visa type null is ["Not Reported"], 1 ["Business"],
    2 ["Pleasure"], 3 ["Student"] and anything else ["Unknown"]. *)
Theorem decoders_total (code : option Z) :
  convert_i94mode (py_of_code code) = decode_travel_mode code
  /\ convert_visatype (py_of_code code) = decode_visa_type code.
Proof.
  destruct code as [n |]; simpl py_of_code.
  - split; [apply convert_i94mode_int | apply convert_visatype_int].
  - split; reflexivity.
Qed.

End CodecSpec.

(** ** The relational operators *)

Module RelFacts.
Import Sql Rel.

Section Joins.
Context {A B : Type}.
Variable on : A -> B -> tri.

Lemma in_inner_join (l : list A) (r : list B) (a : A) (b : B) :
  In (a, b) (inner_join on l r) <->
  In a l /\ In b r /\ holds (on a b) = true.
Proof.
  unfold inner_join. rewrite in_flat_map. split.
  - intros (a' & Ha & H). apply in_map_iff in H as (b' & E & Hb).
    injection E as <- <-. apply filter_In in Hb. tauto.
  - intros (Ha & Hb & H). exists a. split; [assumption |].
    apply in_map. apply filter_In. tauto.
Qed.




End Joins.

Section Ordering.
Context {A : Type}.
Variable leb : A -> A -> bool.

Lemma insert_by_perm (x : A) (l : list A) :
  Permutation (insert_by leb x l) (x :: l).
Proof.
  induction l as [| y l IH]; simpl; [reflexivity |].
  destruct (leb x y); [reflexivity |].
  rewrite IH. apply perm_swap.
Qed.

Lemma orderBy_perm (l : list A) : Permutation (orderBy leb l) l.
Proof.
  induction l as [| x l IH]; simpl; [reflexivity |].
  rewrite insert_by_perm. now apply perm_skip.
Qed.

End Ordering.

Lemma filter_perm {A : Type} (f : A -> bool) (l l' : list A) :
  Permutation l l' -> Permutation (filter f l) (filter f l').
Proof.
  induction 1 as [| x l l' _ IH | x y l | l l' l'' _ IH1 _ IH2]; simpl.
  - reflexivity.
  - destruct (f x); [now apply perm_skip | assumption].
  - destruct (f x), (f y); try reflexivity. apply perm_swap.
  - now transitivity (filter f l').
Qed.

End RelFacts.

(** ** The latest-measurement reducer *)

Module Latest.
Import Sql Rel RelFacts.

Lemma ostring_eqb_eq (a b : option string) :
  Country.ostring_eqb a b = true <-> a = b.
Proof.
  unfold Country.ostring_eqb.
  destruct (ostring_eq_dec a b); split; congruence.
Qed.

Lemma filter_nil_iff {A : Type} (f : A -> bool) (l : list A) :
  filter f l = [] <-> forall x, In x l -> f x = false.
Proof.
  induction l as [| a l IH]; simpl.
  - split; [intros _ x [] | reflexivity].
  - destruct (f a) eqn:E; split.
    + discriminate.
    + intros H. specialize (H a (or_introl eq_refl)). congruence.
    + intros H x [<- | Hx]; [assumption | now apply IH].
    + intros H. apply IH. intros x Hx. apply H. now right.
Qed.

Lemma nodup_nil_iff {A : Type} (dec : forall x y : A, {x = y} + {x <> y}) (l : list A) :
  nodup dec l = [] <-> l = [].
Proof.
  split; [| intros ->; reflexivity].
  destruct l as [| a l]; [reflexivity |].
  intros H. assert (Hin : In a (nodup dec (a :: l))) by (apply nodup_In; now left).
  rewrite H in Hin. destruct Hin.
Qed.

Lemma map_fst_filter_snd {A B : Type} (h : A -> B) (g : B -> bool) (l : list A) :
  map fst (filter (fun p => g (snd p)) (map (fun a => (a, h a)) l))
  = filter (fun a => g (h a)) l.
Proof.
  induction l as [| a l IH]; simpl; [reflexivity |].
  destruct (g (h a)); simpl; now rewrite IH.
Qed.

Lemma filter_filter {A : Type} (f g : A -> bool) (l : list A) :
  filter f (filter g l) = filter (fun x => g x && f x) l.
Proof.
  induction l as [| a l IH]; simpl; [reflexivity |].
  destruct (g a); simpl; [destruct (f a) |]; now rewrite IH.
Qed.

(** A non-empty list has an element of greatest measure. *)
Lemma exists_greatest {A : Type} (m : A -> Z) (l : list A) (x0 : A) :
  In x0 l -> exists x, In x l /\ forall y, In y l -> m y <= m x.
Proof.
  revert x0. induction l as [| a l IH]; intros x0 H; [destruct H |].
  destruct l as [| b l'].
  - exists a. split; [now left |]. intros y [<- | []]. lia.
  - destruct (IH b (or_introl eq_refl)) as (x & Hx & Hmax).
    destruct (Z.le_gt_cases (m a) (m x)) as [Hle | Hgt].
    + exists x. split; [now right |].
      intros y [<- | Hy]; [assumption | now apply Hmax].
    + exists a. split; [now left |].
      intros y [<- | Hy]; [lia |]. specialize (Hmax y Hy). lia.
Qed.

Section Reducer.
Context {Row : Type}.
Variable key : Row -> option string.
Variable ord : Row -> option Z.

(** No row of [r]'s partition comes before [r]. *)
Definition is_latest (rows : list Row) (r : Row) : bool :=
  forallb (fun r' => negb (Country.ostring_eqb (key r') (key r)
                           && desc_before (ord r') (ord r))) rows.

(** The rows that [filter(rank == 1)] keeps. *)
Definition rank1 (rows : list Row) : list (Row * Z) :=
  filter (fun rr => snd rr =? 1) (with_rank Country.ostring_eqb key ord rows).

Lemma dense_rank_one (rows : list Row) (r : Row) :
  (dense_rank Country.ostring_eqb key ord rows r =? 1) = is_latest rows r.
Proof.
  apply eq_iff_eq_true. unfold dense_rank, is_latest, partition_of.
  rewrite Z.eqb_eq, forallb_forall.
  set (P := fun o => desc_before o (ord r)).
  set (K := fun r' => Country.ostring_eqb (key r') (key r)).
  split.
  - intros H r' Hr'.
    assert (Hnil : filter P (map ord (filter K rows)) = []).
    { apply (nodup_nil_iff oZ_eq_dec). apply length_zero_iff_nil. lia. }
    change (negb (K r' && P (ord r')) = true).
    destruct (K r') eqn:EK; [| reflexivity]. simpl.
    rewrite filter_nil_iff in Hnil.
    rewrite (Hnil (ord r')); [reflexivity |].
    apply in_map. apply filter_In. tauto.
  - intros H.
    replace (filter P (map ord (filter K rows))) with (@nil (option Z));
      [reflexivity |].
    symmetry. apply filter_nil_iff. intros o Ho.
    apply in_map_iff in Ho as (r' & <- & Hr'). apply filter_In in Hr' as [Hr' EK].
    specialize (H r' Hr'). change (negb (K r' && P (ord r')) = true) in H.
    rewrite EK in H. simpl in H. now apply negb_true_iff in H.
Qed.

Lemma rank1_rows (rows : list Row) :
  map fst (rank1 rows) = filter (is_latest rows) rows.
Proof.
  unfold rank1, with_rank.
  rewrite (map_fst_filter_snd (dense_rank Country.ostring_eqb key ord rows)
             (fun k => k =? 1)).
  apply filter_ext. intros r. apply dense_rank_one.
Qed.

Variable qualifies : Row -> bool.
Hypothesis qualifies_dated : forall r, qualifies r = true -> exists d, ord r = Some d.

(** The qualifying rows that no qualifying row of their partition
    precedes. *)
Definition latest_rows (df : list Row) : list Row :=
  filter (is_latest (filter qualifies df)) (filter qualifies df).

Definition same_key (r r' : Row) : bool := Country.ostring_eqb (key r') (key r).

Definition same_ord (r r' : Row) : bool :=
  if oZ_eq_dec (ord r') (ord r) then true else false.

(** [r] carries the most recent date of the qualifying rows of its
    group. *)
Definition most_recent (df : list Row) (r : Row) : Prop :=
  forall r', In r' df -> qualifies r' = true -> key r' = key r ->
             forall d d', ord r = Some d -> ord r' = Some d' -> d' <= d.

Lemma is_latest_iff (df : list Row) (r : Row) :
  qualifies r = true ->
  is_latest (filter qualifies df) r = true <-> most_recent df r.
Proof.
  intros Hq. unfold is_latest, most_recent. rewrite forallb_forall. split.
  - intros H r' Hin Hq' Hk d d' Hd Hd'.
    assert (Hr' : In r' (filter qualifies df)) by (apply filter_In; tauto).
    specialize (H r' Hr'). apply negb_true_iff in H.
    rewrite (proj2 (ostring_eqb_eq _ _) Hk), Hd, Hd' in H. simpl in H.
    apply Z.ltb_ge in H. exact H.
  - intros H r' Hr'. apply filter_In in Hr' as [Hin Hq'].
    apply negb_true_iff.
    destruct (Country.ostring_eqb (key r') (key r)) eqn:Ek; [| reflexivity].
    apply ostring_eqb_eq in Ek. simpl.
    destruct (qualifies_dated r Hq) as [d Hd].
    destruct (qualifies_dated r' Hq') as [d' Hd'].
    rewrite Hd, Hd'. simpl. apply Z.ltb_ge. now apply (H r').
Qed.

Lemma in_latest_rows (df : list Row) (r : Row) :
  In r (latest_rows df) <->
  In r df /\ qualifies r = true /\ most_recent df r.
Proof.
  unfold latest_rows. rewrite !filter_In. split.
  - intros [[Hin Hq] Hl]. repeat split; try assumption.
    now apply is_latest_iff.
  - intros (Hin & Hq & Hm). repeat split; try assumption.
    now apply is_latest_iff.
Qed.

(** The rows the reducer keeps for the group of a kept row [r] are the
    qualifying rows of that group dated like [r]. *)
Lemma latest_rows_of_group (df : list Row) (r : Row) :
  In r (latest_rows df) ->
  filter (same_key r) (latest_rows df)
  = filter (fun r' => qualifies r' && same_key r r' && same_ord r r') df.
Proof.
  intros Hr. apply in_latest_rows in Hr as (Hin & Hq & Hm).
  unfold latest_rows. rewrite !filter_filter.
  apply filter_ext_in. intros x Hx.
  destruct (qualifies x) eqn:Eq; [simpl | reflexivity].
  unfold same_key, same_ord.
  destruct (Country.ostring_eqb (key x) (key r)) eqn:Ek;
    [| now rewrite andb_false_r].
  apply ostring_eqb_eq in Ek. rewrite andb_true_r. simpl.
  destruct (qualifies_dated r Hq) as [d Hd].
  destruct (qualifies_dated x Eq) as [dx Hdx].
  apply eq_iff_eq_true. rewrite (is_latest_iff df x Eq).
  destruct (oZ_eq_dec (ord x) (ord r)) as [E | NE]; split; try reflexivity.
  - intros _ r' Hin' Hq' Hk' d0 d' Hd0 Hd'.
    rewrite E in Hd0. apply (Hm r' Hin' Hq'); congruence.
  - intros Hx'. exfalso. apply NE. rewrite Hd, Hdx. f_equal.
    assert (d <= dx) by (apply (Hx' r Hin Hq); congruence).
    assert (dx <= d) by (apply (Hm x Hx Eq); congruence).
    lia.
  - discriminate.
Qed.

(** Every group with a qualifying row has a row in the result. *)
Lemma latest_rows_cover (df : list Row) (r0 : Row) :
  In r0 df -> qualifies r0 = true ->
  exists r, In r (latest_rows df) /\ key r = key r0.
Proof.
  intros Hin Hq.
  set (G := filter (fun x => qualifies x && same_key r0 x) df).
  assert (H0 : In r0 G).
  { apply filter_In. split; [assumption |]. rewrite Hq. simpl.
    now apply ostring_eqb_eq. }
  destruct (exists_greatest (fun x => ifnull (ord x) 0) G r0 H0) as (x & Hx & Hmax).
  apply filter_In in Hx as [Hxin Hx]. apply andb_prop in Hx as [Hxq Hxk].
  apply ostring_eqb_eq in Hxk.
  exists x. split; [| assumption].
  apply in_latest_rows. repeat split; try assumption.
  intros r' Hr' Hq' Hk' d d' Hd Hd'.
  assert (HG : In r' G).
  { apply filter_In. split; [assumption |]. rewrite Hq'. simpl.
    apply ostring_eqb_eq. congruence. }
  specialize (Hmax r' HG). simpl in Hmax. now rewrite Hd, Hd' in Hmax.
Qed.

End Reducer.

End Latest.

(** ** The reduced temperature tables *)

Module ReducedTables.
Import Sql Rel RelFacts Latest Cal.

(** What the country-level reducer keeps before ranking: a date after
    1999-12-31 and a temperature. *)
Definition country_qualifies (r : Country.CountryTemperature) : bool :=
  holds (sql_gt (Country.ct_dt r) (Some Country.threshold))
  && isNotNull (Country.ct_AverageTemperature r).

(** What the city-level reducer keeps before ranking: a date after
    1999-12-31 and the country "United States". *)
Definition city_qualifies (r : CityTemperature.CityTemp) : bool :=
  holds (sql_gt (CityTemperature.dt r) (Some Country.threshold))
  && holds (sql_eq String.eqb (CityTemperature.Country r) (Some "United States")).

(** The reduced tables without their [rank] column. *)
Definition country_table (df : list Country.CountryTemperature) :=
  map fst (Country.df_country_temperatures df).

Definition city_table (df : list CityTemperature.CityTemp) :=
  map fst (CityTemperature.df_city_temperatures_view df).

(** The rows of a table that belong to the group of [r]. *)
Definition country_rows_of (r : Country.CountryTemperature) :=
  filter (same_key Country.ct_Country r).

Definition city_rows_of (r : CityTemperature.CityTemp) :=
  filter (same_key CityTemperature.City r).

Lemma holds_gt (a : option Z) (t : Z) :
  holds (sql_gt a (Some t)) = true <-> exists d, a = Some d /\ t < d.
Proof.
  destruct a as [d |]; simpl.
  - destruct (Z.ltb_spec t d); split.
    + intros _. now exists d.
    + reflexivity.
    + discriminate.
    + intros (d' & E & Hd). injection E as <-. lia.
  - split; [discriminate | intros (d & E & _); discriminate].
Qed.

Lemma country_qualifies_dated r :
  country_qualifies r = true -> exists d, Country.ct_dt r = Some d.
Proof.
  unfold country_qualifies. intros H. apply andb_prop in H as [H _].
  apply holds_gt in H as (d & E & _). now exists d.
Qed.

Lemma city_qualifies_dated r :
  city_qualifies r = true -> exists d, CityTemperature.dt r = Some d.
Proof.
  unfold city_qualifies. intros H. apply andb_prop in H as [H _].
  apply holds_gt in H as (d & E & _). now exists d.
Qed.

Lemma country_table_perm (df : list Country.CountryTemperature) :
  Permutation (country_table df)
    (latest_rows Country.ct_Country Country.ct_dt country_qualifies df).
Proof.
  unfold country_table, Country.df_country_temperatures.
  rewrite orderBy_perm. rewrite filter_filter.
  change (Permutation
            (map fst (rank1 Country.ct_Country Country.ct_dt
                        (filter country_qualifies df)))
            (latest_rows Country.ct_Country Country.ct_dt country_qualifies df)).
  rewrite rank1_rows. reflexivity.
Qed.

Lemma city_table_perm (df : list CityTemperature.CityTemp) :
  Permutation (city_table df)
    (latest_rows CityTemperature.City CityTemperature.dt city_qualifies df).
Proof.
  unfold city_table, CityTemperature.df_city_temperatures_view.
  rewrite orderBy_perm. rewrite filter_filter.
  change (Permutation
            (map fst (rank1 CityTemperature.City CityTemperature.dt
                        (filter city_qualifies df)))
            (latest_rows CityTemperature.City CityTemperature.dt city_qualifies df)).
  rewrite rank1_rows. reflexivity.
Qed.

(** [r] carries the most recent date at which its country has a
    temperature, and that date is after 1999-12-31. *)
Definition country_latest (df : list Country.CountryTemperature)
  (r : Country.CountryTemperature) : Prop :=
  Country.ct_AverageTemperature r <> None
  /\ exists d, Country.ct_dt r = Some d /\ Country.threshold < d
       /\ forall r' d', In r' df ->
                        Country.ct_Country r' = Country.ct_Country r ->
                        Country.ct_AverageTemperature r' <> None ->
                        Country.ct_dt r' = Some d' -> d' <= d.

(** [r] is a United States row and carries the most recent date at
    which its city has a temperature in a United States row, and that
    date is after 1999-12-31. *)
Definition city_latest (df : list CityTemperature.CityTemp)
  (r : CityTemperature.CityTemp) : Prop :=
  CityTemperature.AverageTemperature r <> None
  /\ CityTemperature.Country r = Some "United States"
  /\ exists d, CityTemperature.dt r = Some d /\ Country.threshold < d
       /\ forall r' d', In r' df ->
                        CityTemperature.City r' = CityTemperature.City r ->
                        CityTemperature.Country r' = Some "United States" ->
                        CityTemperature.AverageTemperature r' <> None ->
                        CityTemperature.dt r' = Some d' -> d' <= d.

(** Every United States row after 1999-12-31 has a temperature. *)
Definition city_temperatures_present (df : list CityTemperature.CityTemp) : Prop :=
  forall x, In x df -> city_qualifies x = true ->
            CityTemperature.AverageTemperature x <> None.

Lemma isNotNull_iff {A : Type} (a : option A) : isNotNull a = true <-> a <> None.
Proof. destruct a; simpl; split; congruence. Qed.

Lemma holds_eq_literal (a : option string) (s : string) :
  holds (sql_eq String.eqb a (Some s)) = true <-> a = Some s.
Proof.
  destruct a as [x |]; simpl; [| split; discriminate].
  destruct (String.eqb_spec x s); split; congruence.
Qed.

Lemma country_row_latest df r :
  In r (country_table df) -> In r df /\ country_latest df r.
Proof.
  intros H. apply (Permutation_in _ (country_table_perm df)) in H.
  apply (in_latest_rows _ _ _ country_qualifies_dated) in H as (Hin & Hq & Hm).
  split; [assumption |].
  unfold country_qualifies in Hq. apply andb_prop in Hq as [Hd Ht].
  apply holds_gt in Hd as (d & Ed & Hd). apply isNotNull_iff in Ht.
  split; [assumption |]. exists d. repeat split; try assumption.
  intros r' d' Hin' Hk Ht' Ed'.
  destruct (Z.le_gt_cases d' Country.threshold) as [Hle | Hgt]; [lia |].
  apply (Hm r' Hin'); try assumption.
  unfold country_qualifies. apply andb_true_intro. split.
  - apply holds_gt. exists d'. split; [assumption | lia].
  - now apply isNotNull_iff.
Qed.

Lemma country_rows_count df r :
  In r (country_table df) ->
  List.length (country_rows_of r (country_table df))
  = List.length
      (filter (fun r' => country_qualifies r' && same_key Country.ct_Country r r'
                         && same_ord Country.ct_dt r r') df).
Proof.
  intros H. apply (Permutation_in _ (country_table_perm df)) in H.
  unfold country_rows_of.
  rewrite (Permutation_length (filter_perm _ _ _ (country_table_perm df))).
  now rewrite (latest_rows_of_group _ _ _ country_qualifies_dated).
Qed.

Lemma country_cover df r0 :
  In r0 df -> country_qualifies r0 = true ->
  exists r, In r (country_table df) /\ Country.ct_Country r = Country.ct_Country r0.
Proof.
  intros Hin Hq.
  destruct (latest_rows_cover Country.ct_Country _ _ country_qualifies_dated df r0 Hin Hq)
    as (r & Hr & Hk).
  exists r. split; [| assumption].
  apply (Permutation_in _ (Permutation_sym (country_table_perm df))). exact Hr.
Qed.

Lemma city_row_latest df r :
  city_temperatures_present df ->
  In r (city_table df) -> In r df /\ city_latest df r.
Proof.
  intros Hp H. apply (Permutation_in _ (city_table_perm df)) in H.
  apply (in_latest_rows _ _ _ city_qualifies_dated) in H as (Hin & Hq & Hm).
  split; [assumption |].
  split; [now apply Hp |].
  unfold city_qualifies in Hq. apply andb_prop in Hq as [Hd Hc].
  apply holds_gt in Hd as (d & Ed & Hd). apply holds_eq_literal in Hc.
  split; [assumption |]. exists d. repeat split; try assumption.
  intros r' d' Hin' Hk Hc' _ Ed'.
  destruct (Z.le_gt_cases d' Country.threshold) as [Hle | Hgt]; [lia |].
  apply (Hm r' Hin'); try assumption.
  unfold city_qualifies. apply andb_true_intro. split.
  - apply holds_gt. exists d'. split; [assumption | lia].
  - now apply holds_eq_literal.
Qed.

Lemma city_rows_count df r :
  In r (city_table df) ->
  List.length (city_rows_of r (city_table df))
  = List.length
      (filter (fun r' => city_qualifies r' && same_key CityTemperature.City r r'
                         && same_ord CityTemperature.dt r r') df).
Proof.
  intros H. apply (Permutation_in _ (city_table_perm df)) in H.
  unfold city_rows_of.
  rewrite (Permutation_length (filter_perm _ _ _ (city_table_perm df))).
  now rewrite (latest_rows_of_group _ _ _ city_qualifies_dated).
Qed.

Lemma city_cover df r0 :
  In r0 df -> city_qualifies r0 = true ->
  exists r, In r (city_table df) /\ CityTemperature.City r = CityTemperature.City r0.
Proof.
  intros Hin Hq.
  destruct (latest_rows_cover CityTemperature.City _ _ city_qualifies_dated df r0 Hin Hq)
    as (r & Hr & Hk).
  exists r. split; [| assumption].
  apply (Permutation_in _ (Permutation_sym (city_table_perm df))). exact Hr.
Qed.

(** C2, as the code has it.  Country level: every row of the reduced
    table is an input row that carries the most recent date at which its
    country has a non-null temperature, a date after 1999-12-31; a
    country has as many rows as it has such input rows on that date (so
    exactly one when only one measurement bears the latest date), and
    every country with a non-null temperature after 1999-12-31 has a
    row.  City level, on inputs whose United States rows after
    1999-12-31 all have a temperature: the same, for the United States
    rows of each city. *)
Theorem reduced_tables_keep_latest_rows :
  (forall df r,
      In r (country_table df) ->
      In r df /\ country_latest df r
      /\ List.length (country_rows_of r (country_table df))
         = List.length
             (filter (fun r' => country_qualifies r'
                                && same_key Country.ct_Country r r'
                                && same_ord Country.ct_dt r r') df))
  /\ (forall df r0,
         In r0 df -> country_qualifies r0 = true ->
         exists r, In r (country_table df)
                   /\ Country.ct_Country r = Country.ct_Country r0)
  /\ (forall df,
         city_temperatures_present df ->
         (forall r,
             In r (city_table df) ->
             In r df /\ city_latest df r
             /\ List.length (city_rows_of r (city_table df))
                = List.length
                    (filter (fun r' => city_qualifies r'
                                       && same_key CityTemperature.City r r'
                                       && same_ord CityTemperature.dt r r') df))
         /\ (forall r0,
                In r0 df -> city_qualifies r0 = true ->
                exists r, In r (city_table df)
                          /\ CityTemperature.City r = CityTemperature.City r0)).
Proof.
  split; [| split].
  - intros df r H.
    destruct (country_row_latest df r H) as [Hin Hl].
    repeat split; try assumption; try apply Hl.
    now apply country_rows_count.
  - exact country_cover.
  - intros df Hp. split.
    + intros r H.
      destruct (city_row_latest df r Hp H) as [Hin Hl].
      repeat split; try assumption; try apply Hl.
      now apply city_rows_count.
    + apply city_cover.
Qed.

Definition chile_2013 : list Country.CountryTemperature :=
  [Sample.chile 1998 1 1 90; Sample.chile 2013 7 1 85; Sample.chile 2013 8 1 97;
   Country.mkCountryTemperature (Some (ymd2ord 2013 9 1)) None None (Some "Chile")].

Definition chicago_2015 : list CityTemperature.CityTemp :=
  [Sample.chicago 2015 1 1 (Some (-40)) "United States";
   Sample.chicago 2015 6 1 (Some 210) "United States";
   Sample.chicago 1998 1 1 None "United States"].

Lemma reduced_tables_keep_latest_rows_witness :
  (In (Sample.chile 2013 8 1 97) chile_2013
   /\ country_latest chile_2013 (Sample.chile 2013 8 1 97)
   /\ List.length (country_rows_of (Sample.chile 2013 8 1 97) (country_table chile_2013))
      = 1%nat)
  /\ city_temperatures_present chicago_2015
  /\ In (Sample.chicago 2015 6 1 (Some 210) "United States") chicago_2015
  /\ city_latest chicago_2015 (Sample.chicago 2015 6 1 (Some 210) "United States").
Proof.
  assert (Hp : city_temperatures_present chicago_2015).
  { intros x [<- | [<- | [<- | []]]] H; try discriminate H; discriminate. }
  split; [| split; [exact Hp |]].
  - apply (proj1 reduced_tables_keep_latest_rows chile_2013). now left.
  - pose proof (proj1 (proj2 (proj2 reduced_tables_keep_latest_rows) chicago_2015 Hp)
                  (Sample.chicago 2015 6 1 (Some 210) "United States")
                  (or_introl eq_refl)) as H.
    split; apply H.
Defined.

(** C2 as stated fails when two measurements of a group bear its latest
    date: [dense_rank] gives both rank 1 and the reduced table holds two
    rows for the group.  Two rows of Chile dated 2013-08-01 are both
    kept, and so are two rows of Springfield, United States.  And a
    group measured before 2000 only has no row at all. *)
Lemma reduced_table_two_rows_per_group :
  (let df := [Sample.chile 2013 8 1 97; Sample.chile 2013 8 1 98] in
   country_table df = df
   /\ List.length (country_rows_of (Sample.chile 2013 8 1 97) (country_table df)) = 2%nat)
  /\ country_table [Sample.chile 1998 1 1 90] = []
  /\ (let springfield lat :=
         CityTemperature.mkCityTemp (Some (ymd2ord 2013 9 1))
           (Some (Codec.DFin (181 # 10))) (Some (Codec.DFin (11 # 10)))
           (Some "Springfield") (Some "United States") (Some lat) (Some "93.56W") in
       let df := [springfield "37.78N"; springfield "39.38N"] in
       city_table df = df
       /\ List.length (city_rows_of (springfield "37.78N") (city_table df)) = 2%nat).
Proof.
  split; [split; reflexivity |]. split; [reflexivity |]. split; reflexivity.
Qed.

End ReducedTables.

(** ** The joins *)

Module JoinSpec.
Import Sql SqlFacts Rel RelFacts.

(** Two nullable names are equal without regard to letter case; NULL
    matches nothing. *)
Definition names_match (x y : option string) : Prop :=
  exists a b, x = Some a /\ y = Some b /\ Str.upper a = Str.upper b.


(** A name matches its upper-cased form. *)
Lemma names_match_upper (s : string) : names_match (Some s) (Some (Str.upper s)).
Proof.
  exists s, (Str.upper s). repeat split. symmetry. apply StrFacts.upper_idem.
Qed.





Definition brazil_and_chile : list Country.CountryRef :=
  [Country.mkCountryRef (Some 689) (Some "BRAZIL");
   Country.mkCountryRef (Some 690) (Some "CHILE")].






End JoinSpec.

(** ** Elevation in metres *)

Module AirportSpec.
Import Sql Rel RelFacts.

(** The decimal 0.3048. *)
Definition metres_per_foot : Q := 3048 # 10000.

(** Every elevation of the view is a value of an integer column. *)
Definition elevations_int32 (airport_view : list Airport.AirportRow) : Prop :=
  forall a ft, In a airport_view -> Airport.elevation_ft a = Some ft -> Cast.int32 ft.

Lemma ceiling_feet (ft : Z) :
  Qceiling (inject_Z ft * metres_per_foot) = - ((- (ft * 3048)) / 10000).
Proof.
  unfold Qceiling, Qfloor, Qopp, Qmult, inject_Z, metres_per_foot. simpl.
  reflexivity.
Qed.

Lemma metres_of_feet_exact (ft : Z) :
  Cast.int32 ft ->
  Airport.metres_of_feet ft = Qceiling (inject_Z ft * metres_per_foot).
Proof.
  intros H. unfold Airport.metres_of_feet.
  change (3048 # 10000) with metres_per_foot.
  apply CastFacts.int_of_decimal_id.
  rewrite ceiling_feet.
  unfold Cast.int32, Cast.INT_MIN, Cast.INT_MAX in *.
  pose proof (Z.div_mod (- (ft * 3048)) 10000 ltac:(lia)) as Hdm.
  pose proof (Z.mod_pos_bound (- (ft * 3048)) 10000 ltac:(lia)) as Hb.
  lia.
Qed.

Lemma in_df_airports ports airport_view row :
  In row (Airport.df_airports ports airport_view)
  <-> exists p a, In p ports /\ In a airport_view
                  /\ holds (Airport.on_airport p a) = true
                  /\ holds (Airport.where_airport (p, a)) = true
                  /\ row = Airport.select_airport (p, a).
Proof.
  unfold Airport.df_airports. rewrite in_map_iff. split.
  - intros ([p a] & E & H). apply filter_In in H as [H Hw].
    apply in_inner_join in H as (Hp & Ha & Hon). exists p, a. intuition.
  - intros (p & a & Hp & Ha & Hon & Hw & ->). exists (p, a).
    split; [reflexivity |]. apply filter_In. split; [| assumption].
    now apply in_inner_join.
Qed.

(** C6: in every row of the airport table, [elevation_feet] is the
    airport's [elevation_ft] with 0 in place of null, and
    [elevation_metres] is the ceiling of [elevation_feet] times 0.3048;
    a row whose [elevation_feet] is 0, the null case included, has
    [elevation_metres] 0. *)
Theorem elevation_metres_is_ceiling
  (ports : list Demographics.PortRef) (airport_view : list Airport.AirportRow)
  (row : Airport.AirportOut) :
  elevations_int32 airport_view ->
  In row (Airport.df_airports ports airport_view) ->
  (exists p a, In p ports /\ In a airport_view
               /\ row = Airport.select_airport (p, a)
               /\ Airport.elevation_feet row = ifnull (Airport.elevation_ft a) 0)
  /\ Airport.elevation_metres row
     = Qceiling (inject_Z (Airport.elevation_feet row) * metres_per_foot)
  /\ (Airport.elevation_feet row = 0 -> Airport.elevation_metres row = 0).
Proof.
  intros Hint Hrow.
  apply in_df_airports in Hrow as (p & a & Hp & Ha & Hon & Hw & ->).
  assert (H32 : Cast.int32 (ifnull (Airport.elevation_ft a) 0)).
  { destruct (Airport.elevation_ft a) as [ft |] eqn:E; simpl.
    - now apply (Hint a ft).
    - unfold Cast.int32, Cast.INT_MIN, Cast.INT_MAX. lia. }
  assert (Hm : Airport.elevation_metres (Airport.select_airport (p, a))
               = Qceiling (inject_Z (Airport.elevation_feet (Airport.select_airport (p, a)))
                           * metres_per_foot)).
  { simpl. now apply metres_of_feet_exact. }
  split; [| split].
  - exists p, a. repeat split; assumption.
  - exact Hm.
  - intros H0. rewrite Hm, H0. reflexivity.
Qed.

Lemma elevation_metres_is_ceiling_witness :
  let ports := [Demographics.mkPortRef (Some "ATL") (Some "ATLANTA") (Some "GA")] in
  let view := [Sample.atl_airport (Some 1026) "large_airport";
               Sample.atl_airport None "heliport"] in
  elevations_int32 view
  /\ Forall (fun row =>
               Airport.elevation_metres row
               = Qceiling (inject_Z (Airport.elevation_feet row) * metres_per_foot))
       (Airport.df_airports ports view)
  /\ map (fun row => (Airport.elevation_feet row, Airport.elevation_metres row))
       (Airport.df_airports ports view) = [(1026, 313); (0, 0)].
Proof.
  assert (H : elevations_int32 [Sample.atl_airport (Some 1026) "large_airport";
                                Sample.atl_airport None "heliport"]).
  { intros a ft [<- | [<- | []]] E; [| discriminate E].
    injection E as <-. unfold Cast.int32, Cast.INT_MIN, Cast.INT_MAX. lia. }
  split; [exact H |]. split; [| reflexivity].
  apply Forall_forall. intros row Hrow.
  exact (proj1 (proj2 (elevation_metres_is_ceiling _ _ row H Hrow))).
Defined.

End AirportSpec.

(** ** The immigration and time tables *)

Module ImmigrationSpec.
Import Sql Rel RelFacts Frame Immigration Sample.

(** The identifier of the immigration filter. *)
Definition the_id : Z := 5748881.


(** The six cells of a time-table row for one source date. *)
Definition time_table_row (x : option Codec.double) : list cell :=
  let sas_date := datetime_from_sas x in
  [date_cell sas_date;
   int_cell (option_map Cal.year sas_date);
   int_cell (option_map Cal.month sas_date);
   int_cell (option_map Cal.weekofyear sas_date);
   int_cell (option_map Cal.quarter sas_date);
   int_cell (option_map Cal.dayofweek sas_date)].

(** The tables of immigration rows and the frames a trace writes. *)
Definition immigration_writes (tr : list Etl.Event) : list (list ImmigrationOut) :=
  flat_map (fun e => match e with
                     | Etl.Write _ _ _ (Etl.TImmigrationOut l) => [l]
                     | _ => []
                     end) tr.

Definition frame_writes (tr : list Etl.Event) : list frame :=
  flat_map (fun e => match e with
                     | Etl.Write _ _ _ (Etl.TFrame f) => [f]
                     | _ => []
                     end) tr.

Lemma holds_where_immigration (r : I94) :
  holds (where_immigration r) = true <-> int (cicid r) = Some the_id.
Proof.
  unfold where_immigration, the_id.
  destruct (int (cicid r)) as [z |]; simpl; [| split; discriminate].
  destruct (Z.eqb_spec z 5748881); split; congruence.
Qed.

Lemma in_df_immigrations (v : list I94) (row : ImmigrationOut) :
  In row (df_immigrations v)
  <-> exists r, In r v /\ int (cicid r) = Some the_id /\ row = select_immigration r.
Proof.
  unfold df_immigrations. rewrite in_map_iff. split.
  - intros (r & E & H). apply filter_In in H as [H Hw].
    apply holds_where_immigration in Hw. now exists r.
  - intros (r & H & Hid & ->). exists r. split; [reflexivity |].
    apply filter_In. split; [assumption |]. now apply holds_where_immigration.
Qed.


Lemma df_time_table_eq (v : list I94) :
  df_time_table v
  = Some (mkFrame ["sas_date"; "year"; "month"; "weekofyear"; "quarter"; "dayofweek"]%string
            (map (project [0; 1; 2; 4; 5; 6]%nat) (rows (time_union v)))).
Proof. reflexivity. Qed.

Lemma project_time_row (x : option Codec.double) :
  project [0; 1; 2; 4; 5; 6]%nat (time_row x) = time_table_row x.
Proof. reflexivity. Qed.

Lemma in_time_half (col : I94 -> option Codec.double) (v : list I94) (row : list cell) :
  In row (time_half col v)
  <-> exists r, In r v /\ col r <> None /\ row = time_row (col r).
Proof.
  unfold time_half. rewrite nodup_In, in_map_iff. split.
  - intros (r & E & H). apply filter_In in H as [H Hn].
    exists r. repeat split; [assumption | | now symmetry].
    destruct (col r); [discriminate | discriminate Hn].
  - intros (r & H & Hn & ->). exists r. split; [reflexivity |].
    apply filter_In. split; [assumption |]. destruct (col r); [reflexivity | contradiction].
Qed.

Lemma in_time_union (v : list I94) (row : list cell) :
  In row (rows (time_union v))
  <-> exists r, In r v
                /\ ((arrdate r <> None /\ row = time_row (arrdate r))
                    \/ (depdate r <> None /\ row = time_row (depdate r))).
Proof.
  unfold time_union. simpl. rewrite nodup_In, in_app_iff, !in_time_half. split.
  - intros [(r & H & Hn & E) | (r & H & Hn & E)]; exists r; tauto.
  - intros (r & H & [[Hn E] | [Hn E]]); [left | right]; now exists r.
Qed.

Lemma time_row_determined (x y : option Codec.double) :
  time_table_row x = time_table_row y -> time_row x = time_row y.
Proof.
  unfold time_table_row, time_row. intros E.
  assert (Hd : datetime_from_sas x = datetime_from_sas y).
  { destruct (datetime_from_sas x), (datetime_from_sas y);
      simpl in E; congruence. }
  now rewrite Hd.
Qed.

Lemma NoDup_time_table_rows (v : list I94) :
  NoDup (map (project [0; 1; 2; 4; 5; 6]%nat) (rows (time_union v))).
Proof.
  apply NoDup_map_NoDup_ForallPairs; [| apply NoDup_nodup].
  intros a b Ha Hb E.
  apply in_time_union in Ha as (ra & _ & Ha). apply in_time_union in Hb as (rb & _ & Hb).
  destruct Ha as [[_ ->] | [_ ->]], Hb as [[_ ->] | [_ ->]];
    rewrite !project_time_row in E; now apply time_row_determined.
Qed.

(** One run of the transform over a file that holds the view [v]: it
    succeeds, loads the given path, and writes the immigration table and
    the time table of the same view. *)
Lemma read_immigration_data_run (s : Etl.Session) (input_path output_path : string)
  (v : list I94) :
  Etl.files s input_path = Some (Etl.TI94 v) ->
  exists s' f,
    Etl.read_immigration_data input_path output_path s = Some (tt, s')
    /\ df_time_table v = Some f
    /\ Etl.loads (Etl.trace s') = (Etl.loads (Etl.trace s) ++ [input_path])%list
    /\ immigration_writes (Etl.trace s')
       = (immigration_writes (Etl.trace s) ++ [df_immigrations v])%list
    /\ frame_writes (Etl.trace s') = (frame_writes (Etl.trace s) ++ [f])%list.
Proof.
  intros H.
  unfold Etl.read_immigration_data.
  cbv [Etl.bind Etl.print Etl.emit Etl.load Etl.print_rows_read Etl.num_of_rows_check
       Etl.createOrReplaceTempView Etl.view Etl.ret Etl.expect Etl.as_I94 Etl.write
       Etl.files Etl.views Etl.trace Etl.abort].
  destruct s as [fs vs tr]. simpl in H. rewrite H.
  cbn [String.eqb Ascii.eqb Bool.eqb].
  rewrite df_time_table_eq.
  eexists. eexists. split; [reflexivity |]. split; [reflexivity |].
  unfold Etl.loads, immigration_writes, frame_writes.
  rewrite !flat_map_app. cbn [flat_map]. rewrite !app_nil_r.
  repeat split; reflexivity.
Qed.


Definition two_travellers : list I94 :=
  [traveller 5748880 (fin 20566) None; traveller 5748881 (fin 20574) (fin 20582)].

Definition i94_session : Etl.Session :=
  Etl.mkSession
    (fun path => if String.eqb path "i94_apr16_sub.sas7bdat"
                 then Some (Etl.TI94 two_travellers) else None)
    (fun _ => None) [].


(** C9: the time table is the union of the rows derived from the
    non-null [arrdate]s and from the non-null [depdate]s of the view,
    without duplicate rows, and its columns are [sas_date], [year],
    [month], [weekofyear], [quarter] and [dayofweek]: the [day] column of
    the union is not among them. *)
Theorem time_table_union_distinct (v : list I94) :
  exists f,
    df_time_table v = Some f
    /\ columns f = ["sas_date"; "year"; "month"; "weekofyear"; "quarter"; "dayofweek"]%string
    /\ In "day"%string (columns (time_union v))
    /\ ~ In "day"%string (columns f)
    /\ NoDup (rows f)
    /\ forall row,
         In row (rows f)
         <-> exists r, In r v
                       /\ ((arrdate r <> None /\ row = time_table_row (arrdate r))
                           \/ (depdate r <> None /\ row = time_table_row (depdate r))).
Proof.
  eexists. split; [apply df_time_table_eq |]. cbn [columns rows].
  split; [reflexivity |].
  split; [simpl; tauto |].
  split.
  { simpl. intros H. repeat destruct H as [H | H]; try discriminate H. exact H. }
  split; [apply NoDup_time_table_rows |].
  intros row. rewrite in_map_iff. split.
  - intros (x & <- & Hx). apply in_time_union in Hx as (r & Hr & Hx).
    exists r. split; [assumption |].
    destruct Hx as [[Hn ->] | [Hn ->]]; rewrite project_time_row; tauto.
  - intros (r & Hr & Hx).
    destruct Hx as [[Hn ->] | [Hn ->]].
    + exists (time_row (arrdate r)). split; [apply project_time_row |].
      apply in_time_union. exists r. tauto.
    + exists (time_row (depdate r)). split; [apply project_time_row |].
      apply in_time_union. exists r. tauto.
Qed.

Lemma in_time_table_rows (v : list I94) (f : frame) (r : I94) :
  df_time_table v = Some f -> In r v ->
  (arrdate r <> None -> In (time_table_row (arrdate r)) (rows f))
  /\ (depdate r <> None -> In (time_table_row (depdate r)) (rows f)).
Proof.
  rewrite df_time_table_eq. intros E Hr. injection E as <-. cbn [rows].
  split; intros Hn; rewrite <- project_time_row; apply in_map;
    apply in_time_union; exists r; tauto.
Qed.

(** C10: the time table is computed from the whole [immigrations_view],
    not from the immigration table.  A record of the input whose
    [int(cicid)] is not 5748881 has no row in the immigration table that
    [read_immigration_data] writes, and still its arrival date and its
    departure date, when not null, each have their row in the time table
    written by the same run. *)
Theorem time_table_reads_whole_view
  (s : Etl.Session) (input_path output_path : string) (v : list I94) (r : I94) :
  Etl.files s input_path = Some (Etl.TI94 v) ->
  In r v ->
  int (cicid r) <> Some the_id ->
  exists s' f,
    Etl.read_immigration_data input_path output_path s = Some (tt, s')
    /\ immigration_writes (Etl.trace s')
       = (immigration_writes (Etl.trace s) ++ [df_immigrations v])%list
    /\ frame_writes (Etl.trace s') = (frame_writes (Etl.trace s) ++ [f])%list
    /\ (forall row, In row (df_immigrations v) -> immigration_id row <> int (cicid r))
    /\ (arrdate r <> None -> In (time_table_row (arrdate r)) (rows f))
    /\ (depdate r <> None -> In (time_table_row (depdate r)) (rows f)).
Proof.
  intros H Hr Hid.
  destruct (read_immigration_data_run s input_path output_path v H)
    as (s' & f & Hrun & Hf & _ & Hw & Hfw).
  exists s', f. repeat split; try assumption.
  - intros row Hrow E. apply in_df_immigrations in Hrow as (r' & _ & Hid' & ->).
    simpl in E. congruence.
  - now apply (in_time_table_rows v f r Hf Hr).
  - now apply (in_time_table_rows v f r Hf Hr).
Qed.

Lemma time_table_reads_whole_view_witness :
  exists s' f,
    Etl.read_immigration_data "i94_apr16_sub.sas7bdat" "out" i94_session = Some (tt, s')
    /\ immigration_writes (Etl.trace s')
       = (immigration_writes (Etl.trace i94_session) ++ [df_immigrations two_travellers])%list
    /\ frame_writes (Etl.trace s') = (frame_writes (Etl.trace i94_session) ++ [f])%list
    /\ (forall row, In row (df_immigrations two_travellers) ->
                    immigration_id row <> int (cicid (traveller 5748880 (fin 20566) None)))
    /\ (arrdate (traveller 5748880 (fin 20566) None) <> None ->
        In (time_table_row (arrdate (traveller 5748880 (fin 20566) None))) (rows f))
    /\ (depdate (traveller 5748880 (fin 20566) None) <> None ->
        In (time_table_row (depdate (traveller 5748880 (fin 20566) None))) (rows f)).
Proof.
  apply (time_table_reads_whole_view i94_session "i94_apr16_sub.sas7bdat" "out"
           two_travellers (traveller 5748880 (fin 20566) None)).
  - reflexivity.
  - now left.
  - discriminate.
Defined.

End ImmigrationSpec.

(** ** Load calls of the transforms *)

Module EtlSpec.
Import Etl.

(** Every successful run of [m] issues exactly the load calls [ps], in
    that order. *)
Definition loads_of {A : Type} (m : M A) (ps : list string) : Prop :=
  forall s a s', m s = Some (a, s') ->
                 loads (trace s') = (loads (trace s) ++ ps)%list.

Lemma loads_ret {A : Type} (a : A) : loads_of (ret a) [].
Proof.
  intros s a' s' H. injection H as <- <-. now rewrite app_nil_r.
Qed.

Lemma loads_bind {A B : Type} (m : M A) (k : A -> M B) (ps qs : list string) :
  loads_of m ps -> (forall a, loads_of (k a) qs) -> loads_of (bind m k) (ps ++ qs).
Proof.
  intros Hm Hk s b s' H. unfold bind in H.
  destruct (m s) as [[a s1] |] eqn:E; [| discriminate].
  rewrite (Hk a s1 b s' H), (Hm s a s1 E). now rewrite app_assoc.
Qed.

Lemma loads_emit_other (e : Event) :
  (forall p f sep, e <> Load p f sep) -> loads_of (emit e) [].
Proof.
  intros He s a s' H. injection H as <- <-. simpl.
  unfold loads. rewrite flat_map_app. simpl.
  destruct e; try reflexivity. now destruct (He path format sep).
Qed.

Lemma loads_print (msg : string) : loads_of (print msg) [].
Proof. apply loads_emit_other. discriminate. Qed.

Lemma loads_write path mode cols t : loads_of (write path mode cols t) [].
Proof. apply loads_emit_other. discriminate. Qed.

Lemma loads_load path format sep : loads_of (load path format sep) [path].
Proof.
  intros s a s' H. unfold load in H.
  destruct (files s path); [| discriminate]. injection H as <- <-. simpl.
  unfold loads. now rewrite flat_map_app.
Qed.

Lemma loads_createOrReplaceTempView name t :
  loads_of (createOrReplaceTempView name t) [].
Proof.
  intros s a s' H. injection H as <- <-. simpl. now rewrite app_nil_r.
Qed.

Lemma loads_view name : loads_of (view name) [].
Proof.
  intros s a s' H. unfold view in H.
  destruct (views s name); [| discriminate]. injection H as <- <-.
  now rewrite app_nil_r.
Qed.

Lemma loads_expect {A : Type} (o : option A) : loads_of (expect o) [].
Proof.
  destruct o; [apply loads_ret | intros s a s' H; discriminate].
Qed.

Lemma loads_weaken {A : Type} (m : M A) (ps qs : list string) :
  loads_of m ps -> ps = qs -> loads_of m qs.
Proof. now intros H <-. Qed.

Ltac loads_steps :=
  repeat first
    [ apply loads_print | apply loads_write | apply loads_load
    | apply loads_createOrReplaceTempView | apply loads_view
    | apply loads_expect | apply loads_ret
    | eapply loads_bind; [| intros; cbv zeta] ].

Ltac loads_solve := eapply loads_weaken; [loads_steps | reflexivity].

Lemma loads_print_rows_read t : loads_of (print_rows_read t) [].
Proof. unfold print_rows_read, num_of_rows_check. loads_solve. Qed.

Lemma read_country_data_loads a b c :
  loads_of (read_country_data a b c) [a; "GlobalLandTemperaturesByCountry.csv"%string].
Proof.
  unfold read_country_data. eapply loads_weaken.
  - repeat first [apply loads_print_rows_read | progress loads_steps].
  - reflexivity.
Qed.

Lemma read_port_data_loads p : loads_of (read_port_data p) [p].
Proof.
  unfold read_port_data. eapply loads_weaken.
  - repeat first [apply loads_print_rows_read | progress loads_steps].
  - reflexivity.
Qed.

Lemma read_demographics_data_loads ports d o :
  loads_of (read_demographics_data ports d o) ["us-cities-demographics.csv"%string].
Proof.
  unfold read_demographics_data. eapply loads_weaken.
  - repeat first [apply loads_print_rows_read | progress loads_steps].
  - reflexivity.
Qed.

Lemma read_airport_data_loads ports a o : loads_of (read_airport_data ports a o) [a].
Proof.
  unfold read_airport_data. eapply loads_weaken.
  - repeat first [apply loads_print_rows_read | progress loads_steps].
  - reflexivity.
Qed.

Lemma read_immigration_data_loads i o : loads_of (read_immigration_data i o) [i].
Proof.
  unfold read_immigration_data. eapply loads_weaken.
  - repeat first [apply loads_print_rows_read | progress loads_steps].
  - reflexivity.
Qed.

Lemma read_city_temperatures_loads ports c o :
  loads_of (read_city_temperatures ports c o)
    ["../../data2/GlobalLandTemperaturesByCity.csv"%string].
Proof.
  unfold read_city_temperatures. eapply loads_weaken.
  - repeat first [apply loads_print_rows_read | progress loads_steps].
  - reflexivity.
Qed.

(** Whatever the configuration, a successful run loads the country,
    port, airport and immigration files from their configured paths and
    the three other files from paths written in the program. *)
Lemma main_loads (config : Config) :
  loads_of (main config)
    [COUNTRY_INPUT_PATH config; "GlobalLandTemperaturesByCountry.csv"%string;
     PORTS_INPUT_PATH config; "us-cities-demographics.csv"%string;
     AIRPORTS_INPUT_PATH config; I94_INPUT_PATH config;
     "../../data2/GlobalLandTemperaturesByCity.csv"%string].
Proof.
  unfold main. eapply loads_weaken.
  - eapply loads_bind; [apply read_country_data_loads | intros _].
    eapply loads_bind; [apply read_port_data_loads | intros ports].
    eapply loads_bind; [apply read_demographics_data_loads | intros _].
    eapply loads_bind; [apply read_airport_data_loads | intros _].
    eapply loads_bind; [apply read_immigration_data_loads | intros _].
    apply read_city_temperatures_loads.
  - reflexivity.
Qed.

(** A configuration that names a file of its own for every data set. *)
Definition local_config : Config :=
  mkConfig "data/i94_apr16_sub.sas7bdat" "data/airport-codes_csv.csv"
    "data/i94_ports.csv" "data/i94_countries.csv"
    "data/temperatures_by_country.csv" "data/temperatures_by_city.csv"
    "data/us-cities-demographics.csv" "out".

(** The files of that configuration, and next to them the three files
    the program names itself, which hold no rows. *)
Definition local_files (path : string) : option Table :=
  if String.eqb path "data/i94_apr16_sub.sas7bdat"
  then Some (TI94 ImmigrationSpec.two_travellers)
  else if String.eqb path "data/airport-codes_csv.csv"
  then Some (TAirportCsv [])
  else if String.eqb path "data/i94_ports.csv"
  then Some (TPortRef [Demographics.mkPortRef (Some "ATL") (Some "ATLANTA") (Some "GA")])
  else if String.eqb path "data/i94_countries.csv"
  then Some (TCountryRef JoinSpec.brazil_and_chile)
  else if String.eqb path "data/temperatures_by_country.csv"
  then Some (TCountryTemperature ReducedTables.chile_2013)
  else if String.eqb path "data/temperatures_by_city.csv"
  then Some (TCityTemp ReducedTables.chicago_2015)
  else if String.eqb path "data/us-cities-demographics.csv"
  then Some (TDemo [Sample.atlanta_demo "Atlanta" "GA"])
  else if String.eqb path "GlobalLandTemperaturesByCountry.csv"
  then Some (TCountryTemperature [])
  else if String.eqb path "us-cities-demographics.csv"
  then Some (TDemo [])
  else if String.eqb path "../../data2/GlobalLandTemperaturesByCity.csv"
  then Some (TCityTemp [])
  else None.

Definition local_session : Session := mkSession local_files (fun _ => None) [].

(** C3 fails on the code: [read_country_data], [read_demographics_data]
    and [read_city_temperatures] take the configured path, print it, and
    load a path written in the program instead.  With a configuration
    that names its own file for every data set, the run loads none of
    the three configured temperature and demographics files, and the
    country table it writes has no measurement for Chile although the
    configured temperature file holds one. *)
Theorem configured_paths_not_loaded :
  exists s',
    main local_config local_session = Some (tt, s')
    /\ loads (trace s')
       = ["data/i94_countries.csv"; "GlobalLandTemperaturesByCountry.csv";
          "data/i94_ports.csv"; "us-cities-demographics.csv";
          "data/airport-codes_csv.csv"; "data/i94_apr16_sub.sas7bdat";
          "../../data2/GlobalLandTemperaturesByCity.csv"]%string
    /\ ~ In (COUNTRY_TEMPERATURE_INPUT_PATH local_config) (loads (trace s'))
    /\ ~ In (DEMO_INPUT_PATH local_config) (loads (trace s'))
    /\ ~ In (CITY_TEMPERATURE_INPUT_PATH local_config) (loads (trace s'))
    /\ written "out/parquet/Country_table" (trace s')
       = [TCountryOut
            [Country.mkCountryOut (Some 689) (Some "BRAZIL") None None None;
             Country.mkCountryOut (Some 690) (Some "CHILE") None None None]]
    /\ written "out/parquet/Demographics_table" (trace s') = [TDemoOut []]
    /\ written "out/parquet/city_temperatures" (trace s') = [TCityOut []].
Proof.
  destruct (main local_config local_session) as [[[] s'] |] eqn:E;
    [| vm_compute in E; discriminate E].
  exists s'. split; [reflexivity |].
  pose proof (main_loads local_config _ _ _ E) as HL. simpl in HL.
  rewrite HL.
  split; [reflexivity |].
  split; [simpl; intuition discriminate |].
  split; [simpl; intuition discriminate |].
  split; [simpl; intuition discriminate |].
  vm_compute in E. injection E as <-.
  repeat split; reflexivity.
Qed.

End EtlSpec.

(** * Further properties of the transforms *)

(** ** Day offsets and codes as the SAS file stores them *)

Module CodecMore.
Import Codec Cal CodecSpec.

(** The first day offset that falls on a [datetime]: 0001-01-01. *)
Definition FIRST_OFFSET : Z := -715509.

Lemma Qtrunc_nonneg_num (a : Z) (b : positive) (n : Z) :
  0 <= a -> (Qtrunc (a # b) = n <-> n * Zpos b <= a < (n + 1) * Zpos b).
Proof.
  intros Ha. unfold Qtrunc. simpl.
  rewrite Z.quot_div_nonneg by lia.
  pose proof (Z.div_mod a (Zpos b) ltac:(lia)) as Hdm.
  pose proof (Z.mod_pos_bound a (Zpos b) ltac:(lia)) as Hb.
  split; intros H.
  - subst n. nia.
  - symmetry. apply Z.div_unique with (r := a - n * Zpos b); lia.
Qed.

(** A double from [n] up to, but not reaching, [n + 1] is cut to [n],
    for [n] not negative. *)
Lemma Qtrunc_floor (q : Q) (n : Z) :
  0 <= n -> (inject_Z n <= q)%Q -> (q < inject_Z (n + 1))%Q -> Qtrunc q = n.
Proof.
  destruct q as [a b]. unfold Qle, Qlt. simpl. intros Hn H1 H2.
  apply Qtrunc_nonneg_num; nia.
Qed.

Lemma Qtrunc_pos_iff (q : Q) (n : Z) :
  0 < n ->
  Qtrunc q = n <-> (inject_Z n <= q)%Q /\ (q < inject_Z (n + 1))%Q.
Proof.
  destruct q as [a b]. unfold Qle, Qlt. simpl. intros Hn.
  destruct (Z.le_gt_cases 0 a) as [Ha | Ha].
  - rewrite (Qtrunc_nonneg_num a b n Ha). lia.
  - split.
    + intros H. exfalso. unfold Qtrunc in H. simpl in H.
      replace a with (- (- a)) in H by lia.
      rewrite Z.quot_opp_l in H by lia.
      pose proof (Z.quot_pos (- a) (Zpos b) ltac:(lia) ltac:(lia)). lia.
    + intros [H1 H2]. nia.
Qed.

Lemma convert_datetime_int (d : Z) :
  convert_datetime (PyInt d)
  = if (FIRST_OFFSET <=? d) && (d <=? LAST_OFFSET)
    then Some (ymd2ord 1960 1 1 + d) else None.
Proof.
  rewrite convert_datetime_unfold. cbn [py_int].
  change (ymd2ord 1960 1 1) with 715510.
  unfold FIRST_OFFSET, LAST_OFFSET, MAX_DELTA_DAYS, MAXORDINAL.
  destruct (Z.leb_spec (-715509) d) as [H1 | H1];
    destruct (Z.leb_spec d 2936549) as [H2 | H2]; cbn [andb].
  - rewrite (proj2 (Z.leb_le (Z.abs d) 999999999)) by lia.
    rewrite (proj2 (Z.ltb_lt 0 (715510 + d))) by lia.
    rewrite (proj2 (Z.leb_le (715510 + d) 3652059)) by lia. reflexivity.
  - destruct (Z.abs d <=? 999999999); [| reflexivity].
    rewrite (proj2 (Z.leb_gt (715510 + d) 3652059)) by lia.
    now rewrite andb_false_r.
  - destruct (Z.abs d <=? 999999999); [| reflexivity].
    now rewrite (proj2 (Z.ltb_ge 0 (715510 + d))) by lia.
  - destruct (Z.abs d <=? 999999999); [| reflexivity].
    now rewrite (proj2 (Z.ltb_ge 0 (715510 + d))) by lia.
Qed.

(** X1: [convert_datetime] turns an integer offset into a date exactly
    when the offset lies between -715509 and 2936549, the offsets of
    0001-01-01 and 9999-12-31; the date is then 1960-01-01 plus the
    offset, also for negative offsets, and null otherwise. *)
Theorem convert_datetime_domain (d : Z) :
  ymd2ord 1960 1 1 + FIRST_OFFSET = ymd2ord 1 1 1
  /\ ymd2ord 1960 1 1 + LAST_OFFSET = ymd2ord 9999 12 31
  /\ convert_datetime (PyInt d)
     = if (FIRST_OFFSET <=? d) && (d <=? LAST_OFFSET)
       then Some (ymd2ord 1960 1 1 + d) else None.
Proof.
  split; [reflexivity |]. split; [reflexivity |].
  apply convert_datetime_int.
Qed.

(** X2: a fraction of a day does not change the date: a double from
    [n] up to, but not reaching, [n + 1] is decoded like the integer
    [n], for [n] not negative. *)
Theorem convert_datetime_drops_fraction (q : Q) (n : Z) :
  0 <= n -> (inject_Z n <= q)%Q -> (q < inject_Z (n + 1))%Q ->
  convert_datetime (PyFloat (DFin q)) = convert_datetime (PyInt n).
Proof.
  intros Hn H1 H2. rewrite !convert_datetime_unfold. simpl py_int.
  now rewrite (Qtrunc_floor q n Hn H1 H2).
Qed.

Lemma convert_datetime_drops_fraction_witness :
  convert_datetime (PyFloat (DFin (205669 # 10))) = convert_datetime (PyInt 20566).
Proof.
  apply (convert_datetime_drops_fraction (205669 # 10) 20566).
  - lia.
  - unfold Qle. simpl. lia.
  - unfold Qlt. simpl. lia.
Defined.

End CodecMore.

(** ** The immigration table and the time table, column by column *)

Module ImmigrationMore.
Import Sql Rel RelFacts Frame Immigration Sample ImmigrationSpec.
Import Codec CodecSpec CodecMore.

Lemma int_is_the_id (x : option double) :
  int x = Some the_id
  <-> exists q, x = Some (DFin q)
                /\ (inject_Z the_id <= q)%Q /\ (q < inject_Z (the_id + 1))%Q.
Proof.
  unfold int, the_id. destruct x as [[q | | |] |]; simpl.
  - split.
    + intros H. injection H as H. exists q. split; [reflexivity |].
      apply Qtrunc_pos_iff; [lia |].
      unfold Cast.INT_MIN, Cast.INT_MAX in H. lia.
    + intros (q' & E & H). injection E as <-.
      apply Qtrunc_pos_iff in H; [| lia]. rewrite H. reflexivity.
  - split; [discriminate | intros (q & E & _); discriminate].
  - split; [discriminate | intros (q & E & _); discriminate].
  - split; [discriminate | intros (q & E & _); discriminate].
  - split; [discriminate | intros (q & E & _); discriminate].
Qed.

(** X3: the immigration filter [int(cicid) = 5748881] is on a double
    column, and [int] drops the fraction: a record passes exactly when
    its [cicid] is a finite double from 5748881 up to, but not reaching,
    5748882.  Null, NaN and the infinities never pass. *)
Theorem immigration_filter_on_doubles (r : I94) :
  holds (where_immigration r) = true
  <-> exists q, cicid r = Some (DFin q)
                /\ (inject_Z 5748881 <= q)%Q /\ (q < inject_Z 5748882)%Q.
Proof.
  rewrite holds_where_immigration. apply int_is_the_id.
Qed.

Lemma py_eq_int_Qeq (q : Q) (n k : Z) :
  (q == inject_Z n)%Q -> py_eq_int (PyFloat (DFin q)) k = py_eq_int (PyInt n) k.
Proof.
  intros H. simpl. apply eq_iff_eq_true.
  rewrite Qeq_bool_iff, Z.eqb_eq, H. unfold Qeq. simpl. lia.
Qed.

(** X4: the codes of the SAS file are doubles, and a double equal to
    the integer [n] is decoded like [n]: 1, 2, 3 to "Air", "Sea", "Land"
    and "Business", "Pleasure", "Student", any other to "Unknown"; a
    null mode is "Unknown" and a null visa code "Not Reported".  The
    decoded columns are never null. *)
Theorem codes_decoded_from_doubles (q : Q) (n : Z) :
  (q == inject_Z n)%Q ->
  convert_mode (Some (DFin q)) = Some (decode_travel_mode (Some n))
  /\ Immigration.convert_visatype (Some (DFin q)) = Some (decode_visa_type (Some n))
  /\ convert_mode None = Some "Unknown"%string
  /\ Immigration.convert_visatype None = Some "Not Reported"%string.
Proof.
  intros H. unfold convert_mode, Immigration.convert_visatype. simpl to_py.
  repeat split.
  - rewrite <- convert_i94mode_int. unfold convert_i94mode.
    now rewrite !(py_eq_int_Qeq q n _ H).
  - rewrite <- convert_visatype_int. unfold Codec.convert_visatype.
    now rewrite !(py_eq_int_Qeq q n _ H).
Qed.

Lemma codes_decoded_from_doubles_witness :
  convert_mode (Some (DFin (4 # 2))) = Some "Sea"%string
  /\ Immigration.convert_visatype (Some (DFin (4 # 2))) = Some "Pleasure"%string
  /\ convert_mode None = Some "Unknown"%string
  /\ Immigration.convert_visatype None = Some "Not Reported"%string.
Proof.
  apply (codes_decoded_from_doubles (4 # 2) 2). reflexivity.
Defined.

(** X5: whatever the input holds, a row of the immigration table has one
    of four travel modes and one of five visa types, never null. *)
Theorem immigration_codes_domain (v : list I94) (row : ImmigrationOut) :
  In row (df_immigrations v) ->
  In (mode_of_travel row)
     [Some "Air"; Some "Sea"; Some "Land"; Some "Unknown"]%string
  /\ In (visa_type row)
       [Some "Not Reported"; Some "Business"; Some "Pleasure"; Some "Student";
        Some "Unknown"]%string.
Proof.
  intros H. apply in_df_immigrations in H as (r & _ & _ & ->).
  unfold select_immigration, convert_mode, Immigration.convert_visatype. simpl.
  split.
  - unfold convert_i94mode.
    destruct (py_eq_int (to_py (i94mode r)) 1); [now left |].
    destruct (py_eq_int (to_py (i94mode r)) 2); [right; now left |].
    destruct (py_eq_int (to_py (i94mode r)) 3); [right; right; now left |].
    right; right; right; now left.
  - unfold Codec.convert_visatype.
    destruct (to_py (i94visa r)) eqn:E; try (now left);
      destruct (py_eq_int _ 1); try (right; now left);
      destruct (py_eq_int _ 2); try (right; right; now left);
      destruct (py_eq_int _ 3); try (right; right; right; now left);
      right; right; right; right; now left.
Qed.

Lemma immigration_codes_domain_witness :
  In (Some "Air"%string)
     [Some "Air"; Some "Sea"; Some "Land"; Some "Unknown"]%string
  /\ In (Some "Pleasure"%string)
       [Some "Not Reported"; Some "Business"; Some "Pleasure"; Some "Student";
        Some "Unknown"]%string.
Proof.
  apply (immigration_codes_domain two_travellers
           (select_immigration (traveller 5748881 (fin 20574) (fin 20582)))).
  now left.
Defined.

Lemma convert_datetime_int_some (n : Z) (a : Cal.date) :
  convert_datetime (PyInt n) = Some a
  <-> FIRST_OFFSET <= n <= LAST_OFFSET /\ a = Cal.ymd2ord 1960 1 1 + n.
Proof.
  rewrite convert_datetime_int.
  destruct (Z.leb_spec FIRST_OFFSET n) as [H1 | H1];
    destruct (Z.leb_spec n LAST_OFFSET) as [H2 | H2]; cbn [andb]; split;
    try discriminate; try (intros [[H3 H4] _]; lia).
  - intros E. split; [now split | congruence].
  - intros [_ ->]. reflexivity.
Qed.

Lemma datetime_from_sas_iff (x : option double) (a : Cal.date) :
  datetime_from_sas x = Some a
  <-> exists q, x = Some (DFin q)
                /\ FIRST_OFFSET <= Qtrunc q <= LAST_OFFSET
                /\ a = Cal.ymd2ord 1960 1 1 + Qtrunc q.
Proof.
  unfold datetime_from_sas.
  assert (Hfin : forall q, convert_datetime (PyFloat (DFin q))
                           = convert_datetime (PyInt (Qtrunc q))).
  { intros q. now rewrite !convert_datetime_unfold. }
  destruct x as [[q | | |] |]; cbn [to_py].
  - rewrite Hfin. remember (Qtrunc q) as n eqn:En.
    rewrite convert_datetime_int_some. split.
    + intros [H Ha]. exists q. rewrite <- En. now split.
    + intros (q' & E & H). injection E as <-. rewrite <- En in H. exact H.
  - split; [discriminate | intros (q & E & _); discriminate].
  - split; [discriminate | intros (q & E & _); discriminate].
  - split; [discriminate | intros (q & E & _); discriminate].
  - split; [discriminate | intros (q & E & _); discriminate].
Qed.

(** X6: a date column of the immigration table is not null exactly when
    the SAS value is a finite double whose whole part lies between
    -715509 and 2936549; the date is then 1960-01-01 plus the whole
    part.  A null, NaN, infinite or out-of-range value gives a null
    date, not an error. *)
Theorem datetime_from_sas_defined (x : option double) :
  (forall a, datetime_from_sas x = Some a
             <-> exists q, x = Some (DFin q)
                           /\ FIRST_OFFSET <= Qtrunc q <= LAST_OFFSET
                           /\ a = Cal.ymd2ord 1960 1 1 + Qtrunc q)
  /\ (datetime_from_sas x = None
      <-> x = None \/ x = Some DNaN \/ x = Some DPosInf \/ x = Some DNegInf
          \/ exists q, x = Some (DFin q)
                       /\ (Qtrunc q < FIRST_OFFSET \/ LAST_OFFSET < Qtrunc q)).
Proof.
  split; [apply datetime_from_sas_iff |].
  destruct (datetime_from_sas x) as [a |] eqn:E.
  - apply datetime_from_sas_iff in E as (q & -> & H & _).
    split; [discriminate |].
    intros [H0 | [H0 | [H0 | [H0 | (q' & H0 & H1)]]]]; try discriminate H0.
    injection H0 as <-. lia.
  - split; [| reflexivity]. intros _.
    destruct x as [[q | | |] |]; auto.
    right; right; right; right. exists q. split; [reflexivity |].
    destruct (Z.lt_ge_cases (Qtrunc q) FIRST_OFFSET) as [H1 | H1]; [now left |].
    destruct (Z.lt_ge_cases LAST_OFFSET (Qtrunc q)) as [H2 | H2]; [now right |].
    exfalso.
    assert (Hs : datetime_from_sas (Some (DFin q))
                 = Some (Cal.ymd2ord 1960 1 1 + Qtrunc q)).
    { apply datetime_from_sas_iff. exists q. repeat split; assumption. }
    congruence.
Qed.

(** X7: the days between the arrival and the departure date of a row of
    the immigration table are the difference of the whole parts of the
    record's [depdate] and [arrdate]: decoding keeps lengths of stay. *)
Theorem stay_length_kept (v : list I94) (row : ImmigrationOut) (a b : Cal.date) :
  In row (df_immigrations v) ->
  arrival_date row = Some a ->
  departure_date row = Some b ->
  exists r qa qb,
    In r v /\ row = select_immigration r
    /\ arrdate r = Some (DFin qa) /\ depdate r = Some (DFin qb)
    /\ b - a = Qtrunc qb - Qtrunc qa.
Proof.
  intros H Ha Hb. apply in_df_immigrations in H as (r & Hr & _ & ->).
  simpl in Ha, Hb.
  apply datetime_from_sas_iff in Ha as (qa & Ea & _ & ->).
  apply datetime_from_sas_iff in Hb as (qb & Eb & _ & ->).
  exists r, qa, qb. repeat split; try assumption. lia.
Qed.

Lemma stay_length_kept_witness :
  exists r qa qb,
    In r two_travellers
    /\ select_immigration (traveller 5748881 (fin 20574) (fin 20582)) = select_immigration r
    /\ arrdate r = Some (DFin qa) /\ depdate r = Some (DFin qb)
    /\ (Cal.ymd2ord 1960 1 1 + 20582) - (Cal.ymd2ord 1960 1 1 + 20574)
       = Qtrunc qb - Qtrunc qa.
Proof.
  apply (stay_length_kept two_travellers
           (select_immigration (traveller 5748881 (fin 20574) (fin 20582)))).
  - now left.
  - reflexivity.
  - reflexivity.
Defined.

Lemma in_rows_time_table (v : list I94) (row : list cell) :
  In row (map (project [0; 1; 2; 4; 5; 6]%nat) (rows (time_union v)))
  <-> exists r, In r v
                /\ ((arrdate r <> None /\ row = time_table_row (arrdate r))
                    \/ (depdate r <> None /\ row = time_table_row (depdate r))).
Proof.
  rewrite in_map_iff. split.
  - intros (x & <- & Hx). apply in_time_union in Hx as (r & Hr & Hx).
    exists r. split; [assumption |].
    destruct Hx as [[Hn ->] | [Hn ->]]; rewrite project_time_row; tauto.
  - intros (r & Hr & Hx).
    destruct Hx as [[Hn ->] | [Hn ->]].
    + exists (time_row (arrdate r)). split; [apply project_time_row |].
      apply in_time_union. exists r. tauto.
    + exists (time_row (depdate r)). split; [apply project_time_row |].
      apply in_time_union. exists r. tauto.
Qed.

(** X8: the transform works file by file.  The immigration table of two
    inputs put together is the table of the first followed by the table
    of the second, as appending the two outputs gives; the time table of
    the two together has the rows of either time table, each once. *)
Theorem tables_of_concatenated_input (v1 v2 : list I94) :
  df_immigrations (v1 ++ v2) = (df_immigrations v1 ++ df_immigrations v2)%list
  /\ exists f1 f2 f,
      df_time_table v1 = Some f1 /\ df_time_table v2 = Some f2
      /\ df_time_table (v1 ++ v2) = Some f
      /\ NoDup (rows f)
      /\ forall row, In row (rows f) <-> In row (rows f1) \/ In row (rows f2).
Proof.
  split.
  - unfold df_immigrations. now rewrite filter_app, map_app.
  - eexists. eexists. eexists.
    split; [apply df_time_table_eq |]. split; [apply df_time_table_eq |].
    split; [apply df_time_table_eq |]. cbn [rows].
    split; [apply NoDup_time_table_rows |].
    intros row. rewrite !in_rows_time_table. split.
    + intros (r & Hr & H). apply in_app_or in Hr as [Hr | Hr];
        [left | right]; now exists r.
    + intros [(r & Hr & H) | (r & Hr & H)]; exists r; split; try assumption;
        apply in_or_app; tauto.
Qed.

Definition first_cell (row : list cell) : cell := nth 0 row CNull.

Lemma time_table_row_first (x y : option double) :
  first_cell (time_table_row x) = first_cell (time_table_row y) ->
  time_table_row x = time_table_row y.
Proof.
  unfold first_cell, time_table_row. simpl. intros E.
  assert (Hd : datetime_from_sas x = datetime_from_sas y).
  { destruct (datetime_from_sas x), (datetime_from_sas y);
      simpl in E; congruence. }
  now rewrite Hd.
Qed.

(** X9: [sas_date] is a key of the time table: no two rows bear the same
    date, and at most one row has a null date; that row, which stands
    for every source value that is not null and cannot be decoded, is
    null in all six columns. *)
Theorem time_table_key (v : list I94) :
  exists f,
    df_time_table v = Some f
    /\ NoDup (map first_cell (rows f))
    /\ forall row, In row (rows f) -> first_cell row = CNull ->
                   row = [CNull; CNull; CNull; CNull; CNull; CNull].
Proof.
  eexists. split; [apply df_time_table_eq |]. cbn [rows]. split.
  - apply NoDup_map_NoDup_ForallPairs; [| apply NoDup_time_table_rows].
    intros a b Ha Hb E.
    apply in_rows_time_table in Ha as (ra & _ & Ha).
    apply in_rows_time_table in Hb as (rb & _ & Hb).
    destruct Ha as [[_ ->] | [_ ->]], Hb as [[_ ->] | [_ ->]];
      now apply time_table_row_first.
  - intros row Hrow E.
    apply in_rows_time_table in Hrow as (r & _ & H).
    assert (Hx : forall x, first_cell (time_table_row x) = CNull ->
                           time_table_row x = [CNull; CNull; CNull; CNull; CNull; CNull]).
    { intros x. unfold first_cell, time_table_row. simpl.
      destruct (datetime_from_sas x); simpl; [discriminate | reflexivity]. }
    destruct H as [[_ ->] | [_ ->]]; now apply Hx.
Qed.

End ImmigrationMore.

(** ** The airport, city and country joins, row by row *)

Module JoinMore.
Import Sql SqlFacts Rel RelFacts JoinSpec.

Lemma holds_eq_string (a b : option string) :
  holds (sql_eq String.eqb a b) = true <-> exists x, a = Some x /\ b = Some x.
Proof.
  rewrite holds_eq. split.
  - intros (x & y & -> & -> & E). apply String.eqb_eq in E. subst y. now exists x.
  - intros (x & -> & ->). exists x, x. repeat split. apply String.eqb_refl.
Qed.

Lemma holds_neq_string (a : option string) (s : string) :
  holds (sql_neq String.eqb a (Some s)) = true <-> exists x, a = Some x /\ x <> s.
Proof.
  unfold sql_neq. destruct a as [x |]; simpl.
  - destruct (String.eqb_spec x s); simpl; split.
    + discriminate.
    + intros (y & E & H). injection E as <-. contradiction.
    + intros _. now exists x.
    + reflexivity.
  - split; [discriminate | intros (x & E & _); discriminate].
Qed.

(** X10: the rows of the airport table are exactly the pairs of a port
    and an airport with the same non-null code ([Port_Code] and
    [iata_code], letter case included), the airport's region being "US-"
    followed by the port's state code without surrounding blanks, its
    country "US", and its type known and other than "closed".  An
    airport without type, country, region or code joins nothing. *)
Theorem airport_table_rows
  (ports : list Demographics.PortRef) (view : list Airport.AirportRow)
  (row : Airport.AirportOut) :
  In row (Airport.df_airports ports view)
  <-> exists p a code st ty,
        In p ports /\ In a view
        /\ Demographics.Port_Code p = Some code /\ Airport.iata_code a = Some code
        /\ Demographics.State_Code p = Some st
        /\ Airport.iso_region a = Some ("US-" ++ Str.trim st)%string
        /\ Airport.iso_country a = Some "US"%string
        /\ Airport.type a = Some ty /\ ty <> "closed"%string
        /\ row = Airport.select_airport (p, a).
Proof.
  rewrite AirportSpec.in_df_airports. split.
  - intros (p & a & Hp & Ha & Hon & Hw & ->).
    unfold Airport.on_airport in Hon. rewrite holds_and in Hon.
    apply andb_prop in Hon as [H1 H2].
    apply holds_eq_string in H1 as (code & Hc1 & Hc2).
    apply holds_eq_string in H2 as (reg & Hr1 & Hr2).
    destruct (Demographics.State_Code p) as [st |] eqn:Est; [| discriminate].
    simpl in Hr2. injection Hr2 as <-.
    unfold Airport.where_airport in Hw. rewrite holds_and in Hw.
    apply andb_prop in Hw as [H3 H4]. simpl in H3, H4.
    apply holds_eq_string in H3 as (us & Hu1 & Hu2). injection Hu2 as <-.
    apply holds_neq_string in H4 as (ty & Ht & Hne).
    exists p, a, code, st, ty. repeat split; assumption.
  - intros (p & a & code & st & ty & Hp & Ha & Hc1 & Hc2 & Hst & Hreg & Hus & Hty & Hne & ->).
    exists p, a. repeat split; try assumption.
    + unfold Airport.on_airport. rewrite holds_and. apply andb_true_intro. split.
      * apply holds_eq_string. now exists code.
      * apply holds_eq_string. exists ("US-" ++ Str.trim st)%string.
        split; [assumption |]. now rewrite Hst.
    + unfold Airport.where_airport. rewrite holds_and. apply andb_true_intro.
      simpl. split.
      * apply holds_eq_string. now exists "US"%string.
      * apply holds_neq_string. now exists ty.
Qed.

Lemma filter_all {A : Type} (f : A -> bool) (l : list A) :
  (forall x, In x l -> f x = true) -> filter f l = l.
Proof.
  induction l as [| a l IH]; intros H; simpl; [reflexivity |].
  rewrite (H a (or_introl eq_refl)). f_equal. apply IH.
  intros x Hx. apply H. now right.
Qed.



Lemma inner_join_nil_r {A B : Type} (on : A -> B -> tri) (l : list A) :
  inner_join on l (@nil B) = [].
Proof. induction l as [| a l IH]; simpl; [reflexivity | exact IH]. Qed.

Lemma left_outer_join_nil_r {A B : Type} (on : A -> B -> tri) (l : list A) :
  left_outer_join on l (@nil B) = map (fun a => (a, None)) l.
Proof.
  induction l as [| a l IH]; [reflexivity |].
  unfold left_outer_join in *. simpl. now f_equal.
Qed.

(** X13: a join with an empty side raises nothing.  The demographics,
    airport and city temperature tables are empty when the port view or
    the other side has no row; the country table is empty without
    countries, and without temperature rows it still lists every
    distinct country, with null measurements. *)
Theorem joins_with_an_empty_side :
  (forall ports, Demographics.df_demographics ports [] = [])
  /\ (forall demo, Demographics.df_demographics [] demo = [])
  /\ (forall ports, Airport.df_airports ports [] = [])
  /\ (forall view, Airport.df_airports [] view = [])
  /\ (forall ports, CityTemperature.df_city_temperatures ports [] = [])
  /\ (forall view, CityTemperature.df_city_temperatures [] view = [])
  /\ (forall ct, Country.df_countries [] ct = [])
  /\ (forall cv,
         Country.df_countries cv []
         = nodup Country.CountryOut_eq_dec
             (map (fun c => Country.mkCountryOut (Country.cv_Country_Code c)
                              (Country.cv_Country c) None None None) cv)).
Proof.
  repeat split; try reflexivity.
  - intros ports. unfold Demographics.df_demographics.
    now rewrite inner_join_nil_r.
  - intros ports. unfold Airport.df_airports. now rewrite inner_join_nil_r.
  - intros ports. unfold CityTemperature.df_city_temperatures.
    now rewrite inner_join_nil_r.
  - intros cv. unfold Country.df_countries.
    rewrite left_outer_join_nil_r, map_map. reflexivity.
Qed.

(** A string without a comma. *)
Fixpoint comma_free (s : string) : bool :=
  match s with
  | EmptyString => true
  | String c s' => negb (Ascii.eqb c ","%char) && comma_free s'
  end.

Lemma split_on_comma_free (s cur : string) :
  comma_free s = true -> Str.split_on ","%char cur s = [(cur ++ s)%string].
Proof.
  revert cur. induction s as [| c s IH]; intros cur H; simpl.
  - f_equal. induction cur as [| x cur IHc]; simpl; [reflexivity | now f_equal].
  - simpl in H. apply andb_prop in H as [Hc Hs]. apply negb_true_iff in Hc.
    rewrite Hc. rewrite (IH _ Hs). f_equal.
    induction cur as [| x cur IHc]; simpl; [reflexivity | now f_equal].
Qed.

Lemma split_on_first (a b cur : string) :
  comma_free a = true ->
  Str.split_on ","%char cur (a ++ String ","%char b)
  = (cur ++ a)%string :: Str.split_on ","%char EmptyString b.
Proof.
  revert cur. induction a as [| c a IH]; intros cur H; simpl.
  - f_equal. induction cur as [| x cur IHc]; simpl; [reflexivity | now f_equal].
  - simpl in H. apply andb_prop in H as [Hc Ha]. apply negb_true_iff in Hc.
    rewrite Hc. rewrite (IH _ Ha). f_equal.
    induction cur as [| x cur IHc]; simpl; [reflexivity | now f_equal].
Qed.

(** X14: [longitude] and [latitude] are the text before and after the
    comma of [coordinates], blanks included; without a comma the whole
    text is the longitude and the latitude is null; null coordinates
    give two nulls.  The other columns are those of the file. *)
Theorem longitude_latitude_of_coordinates (r : Airport.AirportCsv) :
  (forall a b,
      Airport.f_coordinates r = Some (a ++ String ","%char b)%string ->
      comma_free a = true -> comma_free b = true ->
      Airport.longitude (Airport.with_lon_lat r) = Some a
      /\ Airport.latitude (Airport.with_lon_lat r) = Some b)
  /\ (forall s,
         Airport.f_coordinates r = Some s -> comma_free s = true ->
         Airport.longitude (Airport.with_lon_lat r) = Some s
         /\ Airport.latitude (Airport.with_lon_lat r) = None)
  /\ (Airport.f_coordinates r = None ->
      Airport.longitude (Airport.with_lon_lat r) = None
      /\ Airport.latitude (Airport.with_lon_lat r) = None)
  /\ Airport.elevation_ft (Airport.with_lon_lat r) = Airport.f_elevation_ft r
  /\ Airport.iata_code (Airport.with_lon_lat r) = Airport.f_iata_code r
  /\ Airport.iso_region (Airport.with_lon_lat r) = Airport.f_iso_region r
  /\ Airport.iso_country (Airport.with_lon_lat r) = Airport.f_iso_country r
  /\ Airport.type (Airport.with_lon_lat r) = Airport.f_type r.
Proof.
  split; [| split; [| split]].
  - intros a b E Ha Hb. unfold Airport.with_lon_lat. simpl. rewrite E. simpl.
    unfold Str.split. rewrite (split_on_first a b EmptyString Ha).
    rewrite (split_on_comma_free b EmptyString Hb). now split.
  - intros s E Hs. unfold Airport.with_lon_lat. simpl. rewrite E. simpl.
    unfold Str.split. rewrite (split_on_comma_free s EmptyString Hs). now split.
  - intros E. unfold Airport.with_lon_lat. simpl. rewrite E. now split.
  - repeat split.
Qed.

Lemma longitude_latitude_of_coordinates_witness :
  let r := Airport.mkAirportCsv (Some "KATL") (Some "large_airport")
             (Some "Hartsfield Jackson") (Some 1026) (Some "NA") (Some "US")
             (Some "US-GA") (Some "Atlanta") (Some "KATL") (Some "ATL") (Some "ATL")
             (Some "-84.428101, 33.6367") in
  Airport.longitude (Airport.with_lon_lat r) = Some "-84.428101"%string
  /\ Airport.latitude (Airport.with_lon_lat r) = Some " 33.6367"%string.
Proof.
  apply (proj1 (longitude_latitude_of_coordinates
                  (Airport.mkAirportCsv (Some "KATL") (Some "large_airport")
                     (Some "Hartsfield Jackson") (Some 1026) (Some "NA") (Some "US")
                     (Some "US-GA") (Some "Atlanta") (Some "KATL") (Some "ATL")
                     (Some "ATL") (Some "-84.428101, 33.6367")))
           "-84.428101"%string " 33.6367"%string); reflexivity.
Defined.

End JoinMore.

(** ** The reducer run on its own result *)

Module ReducerMore.
Import Sql Rel RelFacts Latest ReducedTables.

Section Sorting.
Context {A : Type}.
Variable leb : A -> A -> bool.
Hypothesis leb_total : forall a b, leb a b = true \/ leb b a = true.

Definition le (a b : A) : Prop := leb a b = true.

Lemma insert_by_Sorted (x : A) (l : list A) :
  Sorted le l -> Sorted le (insert_by leb x l).
Proof.
  induction l as [| a l IH]; intros Hs; simpl.
  - repeat constructor.
  - destruct (leb x a) eqn:E.
    + constructor; [assumption |]. constructor. exact E.
    + apply Sorted_inv in Hs as [Hs Hhd].
      constructor; [now apply IH |].
      destruct l as [| b l]; simpl.
      * constructor. destruct (leb_total a x) as [H | H]; [exact H | congruence].
      * destruct (leb x b).
        -- constructor. destruct (leb_total a x) as [H | H]; [exact H | congruence].
        -- constructor. now apply HdRel_inv in Hhd.
Qed.

Lemma orderBy_Sorted (l : list A) : Sorted le (orderBy leb l).
Proof.
  induction l as [| x l IH]; simpl; [constructor | now apply insert_by_Sorted].
Qed.

(** Ordering an ordered list changes nothing. *)
Lemma orderBy_of_Sorted (l : list A) : Sorted le l -> orderBy leb l = l.
Proof.
  induction l as [| x l IH]; intros Hs; simpl; [reflexivity |].
  apply Sorted_inv in Hs as [Hs Hhd]. rewrite (IH Hs).
  destruct l as [| y l]; simpl; [reflexivity |].
  apply HdRel_inv in Hhd. unfold le in Hhd. now rewrite Hhd.
Qed.

End Sorting.

Lemma map_insert_by {A B : Type} (f : A -> B) (leb : B -> B -> bool) (x : A) (l : list A) :
  map f (insert_by (fun a b => leb (f a) (f b)) x l) = insert_by leb (f x) (map f l).
Proof.
  induction l as [| y l IH]; simpl; [reflexivity |].
  destruct (leb (f x) (f y)); simpl; [reflexivity | now rewrite IH].
Qed.

Lemma map_orderBy {A B : Type} (f : A -> B) (leb : B -> B -> bool) (l : list A) :
  map f (orderBy (fun a b => leb (f a) (f b)) l) = orderBy leb (map f l).
Proof.
  induction l as [| x l IH]; simpl; [reflexivity |].
  now rewrite map_insert_by, IH.
Qed.

Lemma asc_nulls_first_total (a b : option string) :
  asc_nulls_first a b = true \/ asc_nulls_first b a = true.
Proof.
  destruct a as [x |], b as [y |]; simpl; auto. apply String.leb_total.
Qed.

Section Reduce.
Context {Row : Type}.
Variable key : Row -> option string.
Variable ord : Row -> option Z.
Variable qualifies : Row -> bool.

Definition by_key (a b : Row) : bool := asc_nulls_first (key a) (key b).

(** The reducer of both temperature files, without the [rank] column. *)
Definition reduce (df : list Row) : list Row :=
  orderBy by_key (latest_rows key ord qualifies df).

Lemma by_key_total (a b : Row) : by_key a b = true \/ by_key b a = true.
Proof. apply asc_nulls_first_total. Qed.

Lemma reduce_Sorted (df : list Row) : Sorted (le by_key) (reduce df).
Proof. apply orderBy_Sorted. apply by_key_total. Qed.

Lemma in_reduce (df : list Row) (r : Row) :
  In r (reduce df) <-> In r (latest_rows key ord qualifies df).
Proof.
  unfold reduce. split; apply Permutation_in;
    [apply orderBy_perm | apply Permutation_sym, orderBy_perm].
Qed.

Lemma reduce_idempotent (df : list Row) : reduce (reduce df) = reduce df.
Proof.
  set (T := reduce df).
  assert (HQ : forall x, In x T -> In x (filter qualifies df)
                                   /\ is_latest key ord (filter qualifies df) x = true).
  { intros x Hx. apply in_reduce in Hx. unfold latest_rows in Hx.
    now apply filter_In in Hx. }
  assert (H1 : filter qualifies T = T).
  { apply JoinMore.filter_all. intros x Hx. apply HQ in Hx as [Hx _].
    now apply filter_In in Hx. }
  assert (H2 : filter (is_latest key ord T) T = T).
  { apply JoinMore.filter_all. intros x Hx.
    destruct (HQ x Hx) as [_ Hl]. unfold is_latest in *.
    rewrite forallb_forall in *. intros r' Hr'. apply Hl. now apply HQ. }
  unfold reduce at 1. unfold latest_rows. fold T. rewrite H1, H2.
  apply orderBy_of_Sorted. apply reduce_Sorted.
Qed.

End Reduce.

Lemma country_table_reduce (df : list Country.CountryTemperature) :
  country_table df = reduce Country.ct_Country Country.ct_dt country_qualifies df.
Proof.
  unfold country_table, Country.df_country_temperatures, reduce, latest_rows.
  rewrite filter_filter.
  rewrite <- (rank1_rows Country.ct_Country Country.ct_dt).
  rewrite <- (map_orderBy fst (by_key Country.ct_Country)).
  reflexivity.
Qed.

Lemma city_table_reduce (df : list CityTemperature.CityTemp) :
  city_table df = reduce CityTemperature.City CityTemperature.dt city_qualifies df.
Proof.
  unfold city_table, CityTemperature.df_city_temperatures_view, reduce, latest_rows.
  rewrite filter_filter.
  rewrite <- (rank1_rows CityTemperature.City CityTemperature.dt).
  rewrite <- (map_orderBy fst (by_key CityTemperature.City)).
  reflexivity.
Qed.

(** X15: both reduced temperature tables come out in ascending order of
    their group key, a null key first: of two neighbouring rows the
    first never has the greater country, or city. *)
Theorem reduced_tables_sorted :
  (forall df, Sorted (fun a b => asc_nulls_first (Country.ct_Country a)
                                   (Country.ct_Country b) = true)
                (country_table df))
  /\ (forall df, Sorted (fun a b => asc_nulls_first (CityTemperature.City a)
                                      (CityTemperature.City b) = true)
                   (city_table df)).
Proof.
  split; intros df.
  - rewrite country_table_reduce. apply (reduce_Sorted Country.ct_Country).
  - rewrite city_table_reduce. apply (reduce_Sorted CityTemperature.City).
Qed.

(** X16: reducing a reduced table changes nothing: the reducer run on
    its own result returns it, rows and order. *)
Theorem reduced_tables_idempotent :
  (forall df, country_table (country_table df) = country_table df)
  /\ (forall df, city_table (city_table df) = city_table df).
Proof.
  split; intros df.
  - rewrite !country_table_reduce. apply reduce_idempotent.
  - rewrite !city_table_reduce. apply reduce_idempotent.
Qed.

End ReducerMore.

(** ** Whole runs of the transforms *)

Module EtlMore.
Import Etl EtlSpec.

(** The writes of a trace, in order. *)
Definition writes (tr : list Event) : list Event :=
  filter (fun e => match e with Write _ _ _ _ => true | _ => false end) tr.

Ltac run_ops :=
  cbv [bind print emit load print_rows_read num_of_rows_check
       createOrReplaceTempView view ret expect write files views trace abort
       as_CountryRef as_CountryTemperature as_CountryTemperatureRanked as_PortRef
       as_Demo as_AirportCsv as_AirportRow as_I94 as_CityTemp as_CityTempRanked];
  cbn [String.eqb Ascii.eqb Bool.eqb].

Ltac run_done :=
  eexists; split; [reflexivity |]; cbn [files views trace];
  cbn [String.eqb Ascii.eqb Bool.eqb];
  split; [reflexivity |]; split; [first [reflexivity | assumption] |];
  unfold writes; rewrite !filter_app; cbn [filter]; rewrite !app_nil_r; reflexivity.

Lemma read_country_data_run s a b c cv ct :
  files s a = Some (TCountryRef cv) ->
  files s "GlobalLandTemperaturesByCountry.csv"%string = Some (TCountryTemperature ct) ->
  exists s',
    read_country_data a b c s = Some (tt, s')
    /\ files s' = files s
    /\ views s' "ports_view"%string = views s "ports_view"%string
    /\ writes (trace s')
       = (writes (trace s)
          ++ [Write (c ++ "/parquet/Country_table") "overwrite" []
                (TCountryOut
                   (Country.df_countries cv (Country.df_country_temperatures ct)))])%list.
Proof.
  intros H1 H2. unfold read_country_data. run_ops.
  destruct s as [fs vs tr]. simpl in H1, H2. rewrite H1.
  do 3 run_ops. rewrite H2. do 3 run_ops. run_done.
Qed.

Lemma read_port_data_run s p ports :
  files s p = Some (TPortRef ports) ->
  exists s',
    read_port_data p s = Some (ports, s')
    /\ files s' = files s
    /\ views s' "ports_view"%string = Some (TPortRef ports)
    /\ writes (trace s') = writes (trace s).
Proof.
  intros H1. unfold read_port_data. run_ops.
  destruct s as [fs vs tr]. simpl in H1. rewrite H1. do 3 run_ops.
  eexists. split; [reflexivity |]. cbn [files views trace].
  split; [reflexivity |]. split; [reflexivity |].
  unfold writes. rewrite !filter_app. cbn [filter]. now rewrite !app_nil_r.
Qed.

Lemma read_demographics_data_run s df d o ports demo :
  files s "us-cities-demographics.csv"%string = Some (TDemo demo) ->
  views s "ports_view"%string = Some (TPortRef ports) ->
  exists s',
    read_demographics_data df d o s = Some (tt, s')
    /\ files s' = files s
    /\ views s' "ports_view"%string = views s "ports_view"%string
    /\ writes (trace s')
       = (writes (trace s)
          ++ [Write (o ++ "/parquet/Demographics_table") "overwrite" []
                (TDemoOut (Demographics.df_demographics ports demo))])%list.
Proof.
  intros H1 Hv. unfold read_demographics_data. run_ops.
  destruct s as [fs vs tr]. simpl in H1, Hv. rewrite H1.
  do 3 run_ops. rewrite Hv. do 3 run_ops. run_done.
Qed.

Lemma read_airport_data_run s df a o ports airports :
  files s a = Some (TAirportCsv airports) ->
  views s "ports_view"%string = Some (TPortRef ports) ->
  exists s',
    read_airport_data df a o s = Some (tt, s')
    /\ files s' = files s
    /\ views s' "ports_view"%string = views s "ports_view"%string
    /\ writes (trace s')
       = (writes (trace s)
          ++ [Write (o ++ "/parquet/airports_table") "overwrite" ["State_Code"%string]
                (TAirportOut
                   (Airport.df_airports ports (map Airport.with_lon_lat airports)))])%list.
Proof.
  intros H1 Hv. unfold read_airport_data. run_ops.
  destruct s as [fs vs tr]. simpl in H1, Hv. rewrite H1.
  do 3 run_ops. rewrite Hv. do 3 run_ops. run_done.
Qed.

Lemma read_immigration_data_writes s i o v :
  files s i = Some (TI94 v) ->
  exists s',
    read_immigration_data i o s = Some (tt, s')
    /\ files s' = files s
    /\ views s' "ports_view"%string = views s "ports_view"%string
    /\ writes (trace s')
       = (writes (trace s)
          ++ [Write (o ++ "/parquet/immigrations_table") "append"
                ["Year"; "Month"]%string
                (TImmigrationOut (Immigration.df_immigrations v));
              Write (o ++ "/parquet/time_table") "append" ["year"; "month"]%string
                (TFrame
                   (Frame.mkFrame
                      ["sas_date"; "year"; "month"; "weekofyear"; "quarter";
                       "dayofweek"]%string
                      (map (Frame.project [0; 1; 2; 4; 5; 6]%nat)
                         (Frame.rows (Immigration.time_union v)))))])%list.
Proof.
  intros H1. unfold read_immigration_data. run_ops.
  destruct s as [fs vs tr]. simpl in H1. rewrite H1.
  do 3 run_ops. rewrite ImmigrationSpec.df_time_table_eq. do 2 run_ops.
  eexists. split; [reflexivity |]. cbn [files views trace].
  split; [reflexivity |]. split; [reflexivity |].
  unfold writes. rewrite !filter_app. cbn [filter]. rewrite !app_nil_r.
  rewrite <- !app_assoc. reflexivity.
Qed.

Lemma read_city_temperatures_run s df c o ports city :
  files s "../../data2/GlobalLandTemperaturesByCity.csv"%string = Some (TCityTemp city) ->
  views s "ports_view"%string = Some (TPortRef ports) ->
  exists s',
    read_city_temperatures df c o s = Some (tt, s')
    /\ files s' = files s
    /\ views s' "ports_view"%string = views s "ports_view"%string
    /\ writes (trace s')
       = (writes (trace s)
          ++ [Write (o ++ "/parquet/city_temperatures") "append" []
                (TCityOut
                   (CityTemperature.df_city_temperatures ports
                      (CityTemperature.df_city_temperatures_view city)))])%list.
Proof.
  intros H1 Hv. unfold read_city_temperatures. run_ops.
  destruct s as [fs vs tr]. simpl in H1, Hv. rewrite H1.
  do 3 run_ops. rewrite Hv. do 3 run_ops. run_done.
Qed.

(** X17: when the seven paths that [main] loads hold files of the right
    kind, the run completes, from any session, and writes six tables in
    this order: the country table (overwrite), the demographics table
    (overwrite), the airport table (overwrite, partitioned by
    [State_Code]), the immigration table (append, by [Year] and
    [Month]), the time table (append, by [year] and [month]) and the
    city temperature table (append), each under [OUTPUT_PATH] and each
    the query result over the files loaded; the port file is read once
    and serves all three port joins. *)
Theorem main_writes_six_tables
  (config : Config) (s : Session)
  (cv : list Country.CountryRef) (ct : list Country.CountryTemperature)
  (ports : list Demographics.PortRef) (demo : list Demographics.Demo)
  (airports : list Airport.AirportCsv) (v : list Immigration.I94)
  (city : list CityTemperature.CityTemp) :
  files s (COUNTRY_INPUT_PATH config) = Some (TCountryRef cv) ->
  files s "GlobalLandTemperaturesByCountry.csv"%string = Some (TCountryTemperature ct) ->
  files s (PORTS_INPUT_PATH config) = Some (TPortRef ports) ->
  files s "us-cities-demographics.csv"%string = Some (TDemo demo) ->
  files s (AIRPORTS_INPUT_PATH config) = Some (TAirportCsv airports) ->
  files s (I94_INPUT_PATH config) = Some (TI94 v) ->
  files s "../../data2/GlobalLandTemperaturesByCity.csv"%string = Some (TCityTemp city) ->
  exists s' f,
    main config s = Some (tt, s')
    /\ Immigration.df_time_table v = Some f
    /\ writes (trace s')
       = (writes (trace s)
          ++ [Write (OUTPUT_PATH config ++ "/parquet/Country_table") "overwrite" []
                (TCountryOut
                   (Country.df_countries cv (Country.df_country_temperatures ct)));
              Write (OUTPUT_PATH config ++ "/parquet/Demographics_table") "overwrite" []
                (TDemoOut (Demographics.df_demographics ports demo));
              Write (OUTPUT_PATH config ++ "/parquet/airports_table") "overwrite"
                ["State_Code"%string]
                (TAirportOut
                   (Airport.df_airports ports (map Airport.with_lon_lat airports)));
              Write (OUTPUT_PATH config ++ "/parquet/immigrations_table") "append"
                ["Year"; "Month"]%string
                (TImmigrationOut (Immigration.df_immigrations v));
              Write (OUTPUT_PATH config ++ "/parquet/time_table") "append"
                ["year"; "month"]%string (TFrame f);
              Write (OUTPUT_PATH config ++ "/parquet/city_temperatures") "append" []
                (TCityOut
                   (CityTemperature.df_city_temperatures ports
                      (CityTemperature.df_city_temperatures_view city)))])%list.
Proof.
  intros Hc Hct Hp Hd Ha Hi Hcity.
  destruct (read_country_data_run s _ (COUNTRY_TEMPERATURE_INPUT_PATH config)
              (OUTPUT_PATH config) cv ct Hc Hct) as (s1 & R1 & F1 & _ & W1).
  rewrite <- F1 in Hp, Hd, Ha, Hi, Hcity.
  destruct (read_port_data_run s1 _ ports Hp) as (s2 & R2 & F2 & V2 & W2).
  rewrite <- F2 in Hd, Ha, Hi, Hcity.
  destruct (read_demographics_data_run s2 ports (DEMO_INPUT_PATH config)
              (OUTPUT_PATH config) ports demo Hd V2) as (s3 & R3 & F3 & V3 & W3).
  rewrite <- F3 in Ha, Hi, Hcity. rewrite <- V3 in V2.
  destruct (read_airport_data_run s3 ports _ (OUTPUT_PATH config) ports airports Ha V2)
    as (s4 & R4 & F4 & V4 & W4).
  rewrite <- F4 in Hi, Hcity. rewrite <- V4 in V2.
  destruct (read_immigration_data_writes s4 _ (OUTPUT_PATH config) v Hi)
    as (s5 & R5 & F5 & V5 & W5).
  rewrite <- F5 in Hcity. rewrite <- V5 in V2.
  destruct (read_city_temperatures_run s5 ports (CITY_TEMPERATURE_INPUT_PATH config)
              (OUTPUT_PATH config) ports city Hcity V2) as (s6 & R6 & _ & _ & W6).
  exists s6. eexists.
  split; [| split; [apply ImmigrationSpec.df_time_table_eq |]].
  - unfold main, bind. now rewrite R1, R2, R3, R4, R5.
  - rewrite W6, W5, W4, W3, W2, W1. rewrite <- !app_assoc. reflexivity.
Qed.

Lemma main_writes_six_tables_witness :
  exists s' f,
    main local_config local_session = Some (tt, s')
    /\ Immigration.df_time_table ImmigrationSpec.two_travellers = Some f
    /\ writes (trace s')
       = (writes (trace local_session)
          ++ [Write (OUTPUT_PATH local_config ++ "/parquet/Country_table") "overwrite" []
                (TCountryOut
                   (Country.df_countries JoinSpec.brazil_and_chile
                      (Country.df_country_temperatures [])));
              Write (OUTPUT_PATH local_config ++ "/parquet/Demographics_table")
                "overwrite" []
                (TDemoOut
                   (Demographics.df_demographics
                      [Demographics.mkPortRef (Some "ATL") (Some "ATLANTA") (Some "GA")]
                      []));
              Write (OUTPUT_PATH local_config ++ "/parquet/airports_table") "overwrite"
                ["State_Code"%string]
                (TAirportOut
                   (Airport.df_airports
                      [Demographics.mkPortRef (Some "ATL") (Some "ATLANTA") (Some "GA")]
                      (map Airport.with_lon_lat [])));
              Write (OUTPUT_PATH local_config ++ "/parquet/immigrations_table") "append"
                ["Year"; "Month"]%string
                (TImmigrationOut (Immigration.df_immigrations ImmigrationSpec.two_travellers));
              Write (OUTPUT_PATH local_config ++ "/parquet/time_table") "append"
                ["year"; "month"]%string (TFrame f);
              Write (OUTPUT_PATH local_config ++ "/parquet/city_temperatures") "append" []
                (TCityOut
                   (CityTemperature.df_city_temperatures
                      [Demographics.mkPortRef (Some "ATL") (Some "ATLANTA") (Some "GA")]
                      (CityTemperature.df_city_temperatures_view [])))])%list.
Proof.
  apply (main_writes_six_tables local_config local_session); reflexivity.
Defined.

(** X18: the three port joins read the view [ports_view] of the session,
    not the dataframe they are given: in a session where no such view is
    registered, each of them aborts, whatever dataframe, paths and files
    it gets, and writes nothing. *)
Theorem port_view_needed (s : Session) (df : list Demographics.PortRef) :
  views s "ports_view"%string = None ->
  (forall d o, read_demographics_data df d o s = None)
  /\ (forall a o, read_airport_data df a o s = None)
  /\ (forall c o, read_city_temperatures df c o s = None).
Proof.
  intros Hv. destruct s as [fs vs tr]. simpl in Hv.
  split; [| split]; intros x o.
  - unfold read_demographics_data. run_ops.
    destruct (fs "us-cities-demographics.csv"%string) as [t |]; [| reflexivity].
    do 3 run_ops. destruct t; try reflexivity. do 3 run_ops. now rewrite Hv.
  - unfold read_airport_data. run_ops.
    destruct (fs x) as [t |]; [| reflexivity].
    do 3 run_ops. destruct t; try reflexivity. do 3 run_ops. now rewrite Hv.
  - unfold read_city_temperatures. run_ops.
    destruct (fs "../../data2/GlobalLandTemperaturesByCity.csv"%string) as [t |];
      [| reflexivity].
    do 3 run_ops. destruct t; try reflexivity. do 3 run_ops. now rewrite Hv.
Qed.

Lemma port_view_needed_witness :
  (forall d o,
      read_demographics_data
        [Demographics.mkPortRef (Some "ATL") (Some "ATLANTA") (Some "GA")] d o
        local_session = None)
  /\ (forall a o,
         read_airport_data
           [Demographics.mkPortRef (Some "ATL") (Some "ATLANTA") (Some "GA")] a o
           local_session = None)
  /\ (forall c o,
         read_city_temperatures
           [Demographics.mkPortRef (Some "ATL") (Some "ATLANTA") (Some "GA")] c o
           local_session = None).
Proof.
  apply (port_view_needed local_session
           [Demographics.mkPortRef (Some "ATL") (Some "ATLANTA") (Some "GA")]).
  reflexivity.
Defined.

(** X19: whatever the configuration, a run of [main] that completes has
    issued seven load calls, in this order: the configured country file,
    "GlobalLandTemperaturesByCountry.csv", the configured port file,
    "us-cities-demographics.csv", the configured airport file, the
    configured immigration file and
    "../../data2/GlobalLandTemperaturesByCity.csv". *)
Theorem main_load_calls (config : Config) (s : Session) :
  match main config s with
  | Some (_, s') =>
      loads (trace s')
      = (loads (trace s)
         ++ [COUNTRY_INPUT_PATH config; "GlobalLandTemperaturesByCountry.csv"%string;
             PORTS_INPUT_PATH config; "us-cities-demographics.csv"%string;
             AIRPORTS_INPUT_PATH config; I94_INPUT_PATH config;
             "../../data2/GlobalLandTemperaturesByCity.csv"%string])%list
  | None => True
  end.
Proof.
  destruct (main config s) as [[u s'] |] eqn:E; [| exact I].
  exact (main_loads config s u s' E).
Qed.

End EtlMore.
